(** * Account server: store, service, HTTP and gRPC adapters, logging

    A shallow embedding of the Go account server (packages [store],
    [service], [handler] and [middleware]) together with the properties of
    its specification.  The server is sequentialised: the reader/writer lock
    of the store is not modelled, every operation is one atomic step on the
    world. *)

From Stdlib Require Import ZArith Lia Ascii.
From stdpp Require Import base option list strings gmap fin_maps.

Local Open Scope Z_scope.

(** The double quote and the newline character, as strings. *)
Definition dquote : string := String (Ascii.ascii_of_nat 34) EmptyString.
Definition newline : string := String (Ascii.ascii_of_nat 10) EmptyString.

(** [s[n:]] *)
Definition drop_string (n : nat) (s : string) : string :=
  String.substring n (String.length s - n) s.

(** ** Package time: UTC instants and their two textual forms

    The server only ever holds instants produced by [time.Now().UTC()]: no
    monotonic reading, zone offset 0, zone name UTC.  An instant is its
    number of nanoseconds since the Unix epoch; the calendar fields are
    computed from it (proleptic Gregorian calendar, as package time does). *)

Module gotime.

Record Time := mkTime { unixNano : Z }.

Definition Before (t u : Time) : bool := unixNano t <? unixNano u.
Definition After (t u : Time) : bool := unixNano u <? unixNano t.

(** Seconds since the epoch and the nanosecond within the second. *)
Definition unixSec (t : Time) : Z := unixNano t / 1000000000.
Definition Nanosecond (t : Time) : Z := unixNano t mod 1000000000.

(** Days since the epoch and the second within the day. *)
Definition unixDay (t : Time) : Z := unixSec t / 86400.
Definition secOfDay (t : Time) : Z := unixSec t mod 86400.

Definition Hour (t : Time) : Z := secOfDay t / 3600.
Definition Minute (t : Time) : Z := (secOfDay t mod 3600) / 60.
Definition Second (t : Time) : Z := secOfDay t mod 60.

(** Civil date of a day number: years are counted from 1 March in cycles of
    400 years (146097 days), so that the leap day is the last of its year. *)
Definition civil (days : Z) : Z * Z * Z :=
  let z := days + 719468 in
  let era := z / 146097 in
  let doe := z mod 146097 in
  let yoe := (doe - doe / 1460 + doe / 36524 - doe / 146096) / 365 in
  let doy := doe - (365 * yoe + yoe / 4 - yoe / 100) in
  let mp := (5 * doy + 2) / 153 in
  let d := doy - (153 * mp + 2) / 5 + 1 in
  let m := if mp <? 10 then mp + 3 else mp - 9 in
  let y := yoe + era * 400 + (if m <=? 2 then 1 else 0) in
  (y, m, d).

Definition Year (t : Time) : Z := (civil (unixDay t)).1.1.
Definition Month (t : Time) : Z := (civil (unixDay t)).1.2.
Definition Day (t : Time) : Z := (civil (unixDay t)).2.

(** *** Formatting *)

Definition digit (d : Z) : ascii :=
  match d with
  | 0 => "0" | 1 => "1" | 2 => "2" | 3 => "3" | 4 => "4"
  | 5 => "5" | 6 => "6" | 7 => "7" | 8 => "8" | _ => "9"
  end%char.

(** Decimal digits of [u >= 0], most significant first, in front of [acc]. *)
Fixpoint utoa (fuel : nat) (u : Z) (acc : string) : string :=
  match fuel with
  | O => acc
  | S fuel =>
      let acc := String (digit (u mod 10)) acc in
      if u / 10 =? 0 then acc else utoa fuel (u / 10) acc
  end.

Definition itoa (u : Z) : string := utoa (S (Z.to_nat (Z.log2 u))) u "".

Fixpoint zeros (n : nat) : string :=
  match n with O => "" | S n => String "0" (zeros n) end.

(** [appendInt]: the decimal form of [x], zero-padded to [width] digits,
    with a leading minus sign when negative. *)
Definition appendInt (x : Z) (width : nat) : string :=
  let u := Z.abs x in
  let ds := itoa u in
  (if x <? 0 then "-" else "") +:+ zeros (width - String.length ds) +:+ ds.

(** Drop the trailing zeros of a digit string (given reversed). *)
Fixpoint trim0 (rev_digits : list ascii) : list ascii :=
  match rev_digits with
  | c :: r => if Ascii.eqb c "0" then trim0 r else rev_digits
  | [] => []
  end.

(** [appendNano] for a [.999999999]-style field: up to [n] fractional
    digits of the nanosecond, trailing zeros removed, nothing at all when
    they are all zero. *)
Definition appendNano (nanosec : Z) (n : nat) : string :=
  let nine := appendInt nanosec 9 in
  let kept := rev (trim0 (rev (take n (String.list_ascii_of_string nine)))) in
  match kept with
  | [] => ""
  | _ => String "." (String.string_of_list_ascii kept)
  end.

(** The layout elements the server's two layouts are made of. *)
Inductive std :=
  | stdNone
  | stdLongYear            (* 2006 *)
  | stdZeroMonth           (* 01 *)
  | stdZeroDay             (* 02 *)
  | stdHour                (* 15 *)
  | stdZeroMinute          (* 04 *)
  | stdZeroSecond          (* 05 *)
  | stdFracSecond9 (n : nat) (* .999... *)
  | stdNumTZ               (* -0700 *)
  | stdTZ                  (* MST *)
  | stdISO8601ColonTZ.     (* Z07:00 *)

Definition isDigit (s : string) : bool :=
  match s with
  | String c _ => (48 <=? Z.of_nat (Ascii.nat_of_ascii c)) && (Z.of_nat (Ascii.nat_of_ascii c) <=? 57)
  | EmptyString => false
  end.

(** Length of the run of ['9'] at the head of [s], and what follows it. *)
Fixpoint nines (s : string) : nat * string :=
  match s with
  | String c r =>
      if Ascii.eqb c "9" then let '(n, rest) := nines r in (S n, rest) else (O, s)
  | EmptyString => (O, s)
  end.

(** The layout element that starts at the head of [layout], if any, with
    the layout after it. *)
Definition stdAt (layout : string) : option (std * string) :=
  if String.prefix "2006" layout then Some (stdLongYear, drop_string 4 layout)
  else if String.prefix "01" layout then Some (stdZeroMonth, drop_string 2 layout)
  else if String.prefix "02" layout then Some (stdZeroDay, drop_string 2 layout)
  else if String.prefix "04" layout then Some (stdZeroMinute, drop_string 2 layout)
  else if String.prefix "05" layout then Some (stdZeroSecond, drop_string 2 layout)
  else if String.prefix "15" layout then Some (stdHour, drop_string 2 layout)
  else if String.prefix "-0700" layout then Some (stdNumTZ, drop_string 5 layout)
  else if String.prefix "MST" layout then Some (stdTZ, drop_string 3 layout)
  else if String.prefix "Z07:00" layout then Some (stdISO8601ColonTZ, drop_string 6 layout)
  else if String.prefix ".9" layout then
    let '(n, rest) := nines (drop_string 1 layout) in
    if isDigit rest then None else Some (stdFracSecond9 n, rest)
  else None.

(** [nextStdChunk]: the literal prefix before the first layout element, the
    element, and the rest of the layout. *)
Fixpoint nextStdChunk (layout : string) : string * std * string :=
  match layout with
  | EmptyString => ("", stdNone, "")
  | String c rest =>
      match stdAt layout with
      | Some (s, suffix) => ("", s, suffix)
      | None => let '(p, s, suffix) := nextStdChunk rest in (String c p, s, suffix)
      end
  end.

(** The text of one layout element for a UTC instant. *)
Definition appendStd (t : Time) (s : std) : string :=
  let offset := 0 in
  match s with
  | stdNone => ""
  | stdLongYear => appendInt (Year t) 4
  | stdZeroMonth => appendInt (Month t) 2
  | stdZeroDay => appendInt (Day t) 2
  | stdHour => appendInt (Hour t) 2
  | stdZeroMinute => appendInt (Minute t) 2
  | stdZeroSecond => appendInt (Second t) 2
  | stdFracSecond9 n => appendNano (Nanosecond t) n
  | stdNumTZ =>
      let zone := offset / 60 in
      (if zone <? 0 then "-" else "+")
        +:+ appendInt (Z.abs zone / 60) 2 +:+ appendInt (Z.abs zone mod 60) 2
  | stdTZ => "UTC"
  | stdISO8601ColonTZ => "Z"
  end.

Fixpoint formatLoop (fuel : nat) (render : std -> string) (layout : string) : string :=
  match fuel with
  | O => ""
  | S fuel =>
      let '(prefix, s, suffix) := nextStdChunk layout in
      match s with
      | stdNone => prefix
      | _ => prefix +:+ render s +:+ formatLoop fuel render suffix
      end
  end.

Definition Format (t : Time) (layout : string) : string :=
  formatLoop (S (String.length layout)) (appendStd t) layout.

Definition RFC3339Nano : string := "2006-01-02T15:04:05.999999999Z07:00".
Definition DateOnly : string := "2006-01-02".
Definition ClockNano : string := "15:04:05.999999999".

(** [Time.String] of an instant without monotonic reading. *)
Definition String (t : Time) : string :=
  Format t "2006-01-02 15:04:05.999999999 -0700 MST".

(** [Time.MarshalJSON]: the quoted RFC 3339 text, refused for years outside
    0..9999. *)
Definition MarshalJSON (t : Time) : option string :=
  if (Year t <? 0) || (10000 <=? Year t) then None
  else Some (dquote +:+ Format t RFC3339Nano +:+ dquote).

End gotime.

(** ** Errors and status codes *)

Module codes.
Inductive Code := OK | InvalidArgument | NotFound | Internal | Unknown.

Global Instance Code_eq_dec : EqDecision Code.
Proof. solve_decision. Defined.
End codes.

(** The error values that occur in the server: the store's sentinel
    [ErrNotFound], a gRPC status error, and any other error. *)
Inductive error :=
  | ErrNotFound
  | StatusError (c : codes.Code) (msg : string)
  | OtherError (msg : string).

Global Instance error_eq_dec : EqDecision error.
Proof. solve_decision. Defined.

(** [errors.Is] on these flat (unwrapped) error values. *)
Definition errors_Is (err target : error) : bool := bool_decide (err = target).

(** The outcome of a store or service operation, which returns either a
    value with a nil error or a nil value with an error. *)
Inductive result (A : Type) :=
  | Ok (a : A)
  | Err (e : error).
Arguments Ok {A} a.
Arguments Err {A} e.

(** A Go [(value, error)] pair as the RPC layer passes it around; a nil
    value or a nil error is [None]. *)
Definition ret2 (A : Type) : Type := option A * option error.

(** ** Package model *)

Module model.
(** Modelled from the spec: the declaration of [model.Account] is not among
    the sources; the fields are those the service fills in, and the JSON
    keys are the ones of the Account JSON shape ([id], [name], [email],
    [created_at]).  [CreatedAt] holds a [time.Time], since the service
    stores [time.Now().UTC()] in it. *)
Record Account := mkAccount {
  ID : string;
  Name : string;
  Email : string;
  CreatedAt : gotime.Time;
}.
End model.

(** ** The environment and the world

    What the server takes from outside: the wall clock, the UUID generator,
    the iteration order of a map range, the JSON reader, string quoting and
    compaction of encoding/json, and bytes.TrimSpace.  The clock, the
    generator and the map order are consulted by position: the n-th reading
    of each comes from the n-th entry of its oracle. *)

#[local] Set Warnings "-register-all".
Inductive json :=
  | JNull
  | JBool (b : bool)
  | JNumber (literal : string)
  | JString (s : string)
  | JArray (elems : list json)
  | JObject (members : list (string * json)).

Class Env := {
  timeNow : nat -> gotime.Time;         (* time.Now().UTC() *)
  uuidNew : nat -> string;              (* uuid.New().String() *)
  mapSeed : nat -> nat;                 (* start of a map iteration *)
  jsonRead : string -> option json;     (* first JSON value of a byte stream *)
  jsonQuote : string -> string;         (* a Go string as a JSON string *)
  jsonCompact : string -> option string; (* json.Compact *)
  bytesTrimSpace : string -> string     (* bytes.TrimSpace *)
}.

(** One line of the log: the arguments of the [log.Printf] call. *)
Inductive LogLine :=
  | LogGRPC (method req : string) (code : codes.Code) (resp : string) (elapsed : Z)
  | LogHTTP (method path req : string) (status : Z) (resp : string) (elapsed : Z).

Record World := mkWorld {
  accounts : gmap string model.Account; (* AccountStore.accounts *)
  clockReads : nat;
  uuidDraws : nat;
  mapRanges : nat;
  logged : list LogLine;
}.

(** State passing over the world. *)
Definition M (A : Type) : Type := World -> A * World.

Definition ret {A} (a : A) : M A := fun w => (a, w).
Definition bind {A B} (m : M A) (k : A -> M B) : M B :=
  fun w => let '(a, w') := m w in k a w'.

Notation "x <- c ;; k" := (bind c (fun x => k))
  (at level 100, c at next level, right associativity).

Section primitives.
Context {env : Env}.

Definition time_Now : M gotime.Time :=
  fun w => (timeNow (clockReads w),
            mkWorld (accounts w) (S (clockReads w)) (uuidDraws w) (mapRanges w) (logged w)).

Definition time_Since (start : gotime.Time) : M Z :=
  now <- time_Now ;; ret (gotime.unixNano now - gotime.unixNano start).

Definition uuid_New : M string :=
  fun w => (uuidNew (uuidDraws w),
            mkWorld (accounts w) (clockReads w) (S (uuidDraws w)) (mapRanges w) (logged w)).

Definition log_Print (l : LogLine) : M unit :=
  fun w => (tt, mkWorld (accounts w) (clockReads w) (uuidDraws w) (mapRanges w)
                        (logged w ++ [l])).
End primitives.

(** The order in which a [range] visits the entries of a map is not fixed:
    a seed picks one of the orders. *)
Fixpoint shuffle {A} (fuel seed : nat) (l : list A) : list A :=
  match fuel with
  | O => []
  | S fuel =>
      let k := (seed mod length l)%nat in
      match l !! k with
      | Some x => x :: shuffle fuel (seed / length l)%nat (delete k l)
      | None => []
      end
  end.

Definition rangeMap {V} (seed : nat) (m : gmap string V) : list (string * V) :=
  let entries := map_to_list m in shuffle (length entries) seed entries.

(** ** Package store *)

Module store.
Section store.
Context {env : Env}.

Definition NewAccountStore : gmap string model.Account := ∅.

Definition Create (acc : model.Account) : M (result model.Account) :=
  fun w =>
    (Ok acc,
     mkWorld (<[model.ID acc := acc]> (accounts w))
             (clockReads w) (uuidDraws w) (mapRanges w) (logged w)).

Definition GetByID (id : string) : M (result model.Account) :=
  fun w =>
    match accounts w !! id with
    | None => (Err ErrNotFound, w)
    | Some acc => (Ok acc, w)
    end.

(** A slice can be nil ([None]); the one built here never is. *)
Definition List : M (result (option (list model.Account))) :=
  fun w =>
    let visited := rangeMap (mapSeed (mapRanges w)) (accounts w) in
    let accounts' := foldl (fun accs kv => accs ++ [kv.2]) [] visited in
    (Ok (Some accounts'),
     mkWorld (accounts w) (clockReads w) (uuidDraws w) (S (mapRanges w)) (logged w)).
End store.
End store.

(** ** Package service *)

Module service.
Section service.
Context {env : Env}.

Record CreateAccountInput := mkInput { Name : string; Email : string }.

Definition Create (input : CreateAccountInput) : M (result model.Account) :=
  id <- uuid_New ;;
  now <- time_Now ;;
  store.Create (model.mkAccount id (Name input) (Email input) now).

Definition GetByID (id : string) : M (result model.Account) := store.GetByID id.

Definition List : M (result (option (list model.Account))) := store.List.
End service.
End service.

(** The world at start-up: the store [main] builds, nothing read or logged
    yet. *)
Definition NewWorld : World := mkWorld store.NewAccountStore 0 0 0 [].

(** ** Package net/http, as far as the handlers use it

    The two handlers are modelled as registered; the routing of the mux
    itself is not. *)

Module http.

Definition StatusOK : Z := 200.
Definition StatusCreated : Z := 201.
Definition StatusBadRequest : Z := 400.
Definition StatusNotFound : Z := 404.
Definition StatusMethodNotAllowed : Z := 405.
Definition StatusInternalServerError : Z := 500.

Definition MethodGet : string := "GET".
Definition MethodPost : string := "POST".

(** The body of a server request is never nil: it is [NoBody], or a
    reader that delivers [data] and then ends, with EOF ([None]) or with a
    read error. *)
Inductive Body :=
  | NoBody
  | Reader (data : string) (err : option error).

Record Request := mkRequest {
  Method : string;
  Path : string;      (* r.URL.Path *)
  body : Body;        (* r.Body *)
}.

(** [io.ReadAll]: everything the reader delivers and how it ended; the
    reader is left drained. *)
Definition ReadAll (b : Body) : string * option error * Body :=
  match b with
  | NoBody => ("", None, NoBody)
  | Reader data err => (data, err, Reader "" err)
  end.

(** The body can be read to its end without a read error. *)
Definition readsToEnd (b : Body) : Prop := (ReadAll b).1.2 = None.

(** The bytes a reader of the body gets before the body ends. *)
Definition pending (b : Body) : string := (ReadAll b).1.1.

(** [io.NopCloser(bytes.NewReader(raw))] *)
Definition NewReader (raw : string) : Body := Reader raw None.

(** A handler talks to its ResponseWriter through three calls, whose
    results it does not inspect; it is modelled by the calls it makes, in
    order. *)
Inductive Call :=
  | HeaderSet (key value : string)
  | WriteHeader (status : Z)
  | Write (b : string).

Class ResponseWriter (W : Type) := {
  doHeaderSet : string -> string -> W -> W;
  doWriteHeader : Z -> W -> W;
  doWrite : string -> W -> W;
}.

Definition call {W} `{ResponseWriter W} (w : W) (c : Call) : W :=
  match c with
  | HeaderSet k v => doHeaderSet k v w
  | WriteHeader s => doWriteHeader s w
  | Write b => doWrite b w
  end.

Definition Handler : Type := Request -> M (list Call).

Definition ServeHTTP {W} `{ResponseWriter W} (h : Handler) (w : W) (r : Request) : M W :=
  calls <- h r ;; ret (foldl call w calls).

(** The writer that only remembers the calls made on it. *)
#[global] Instance trace_writer : ResponseWriter (list Call) := {
  doHeaderSet k v t := t ++ [HeaderSet k v];
  doWriteHeader s t := t ++ [WriteHeader s];
  doWrite b t := t ++ [Write b];
}.

(** The server's own writer: the first [WriteHeader] fixes the status and
    the headers sent, a [Write] before any [WriteHeader] implies status
    200, later header changes and [WriteHeader] calls are ignored. *)
Record response := mkResponse {
  header : gmap string string;
  wroteHeader : bool;
  status : Z;
  sentHeader : gmap string string;
  written : string;
}.

Definition newResponse : response := mkResponse ∅ false 0 ∅ "".

Definition response_WriteHeader (s : Z) (w : response) : response :=
  if wroteHeader w then w
  else mkResponse (header w) true s (header w) (written w).

Definition response_Write (b : string) (w : response) : response :=
  let w := response_WriteHeader StatusOK w in
  mkResponse (header w) (wroteHeader w) (status w) (sentHeader w) (written w +:+ b).

#[global] Instance response_writer : ResponseWriter response := {
  doHeaderSet k v w :=
    mkResponse (<[k := v]> (header w)) (wroteHeader w) (status w) (sentHeader w) (written w);
  doWriteHeader := response_WriteHeader;
  doWrite := response_Write;
}.

(** What the client receives when [h] serves [r]. *)
Definition respond (h : Handler) (r : Request) : M response :=
  ServeHTTP h newResponse r.

(** [http.Error] *)
Definition Error (msg : string) (code : Z) : list Call :=
  [ HeaderSet "Content-Type" "text/plain; charset=utf-8";
    HeaderSet "X-Content-Type-Options" "nosniff";
    WriteHeader code;
    Write (msg +:+ newline) ].

End http.

(** [strings.TrimPrefix] *)
Definition TrimPrefix (s prefix : string) : string :=
  if String.prefix prefix s then drop_string (String.length prefix) s else s.

(** ** Package proto/account: the messages of the RPC surface

    Request fields are read through their getters, as the handlers do.  The
    [Account] field of the create and get responses is named [created] and
    [found] here, the name [Account] being the message type's. *)

Module pb.
Record CreateAccountRequest := mkCreateAccountRequest {
  GetName : string;
  GetEmail : string;
}.
Record GetAccountRequest := mkGetAccountRequest { GetId : string }.
Record ListAccountsRequest := mkListAccountsRequest { }.

Record Account := mkAccount {
  Id : string;
  Name : string;
  Email : string;
  CreatedAt : string;
}.

Record CreateAccountResponse := mkCreateAccountResponse { created : option Account }.
Record GetAccountResponse := mkGetAccountResponse { found : option Account }.
Record ListAccountsResponse := mkListAccountsResponse { Accounts : option (list Account) }.
End pb.

(** [grpcstatus.Error] and [status.Code] *)
Definition grpcstatus_Error (c : codes.Code) (msg : string) : error := StatusError c msg.

Definition status_Code (err : option error) : codes.Code :=
  match err with
  | None => codes.OK
  | Some (StatusError c _) => c
  | Some _ => codes.Unknown
  end.

(** ** Package handler *)

Module handler.
Section handler.
Context {env : Env}.

(** *** Reading the body of POST /accounts

    The anonymous request struct of [createAccount], with its JSON tags
    [name] and [email]. *)
Record createRequest := mkCreateRequest { Name : string; Email : string }.

Inductive field := fieldName | fieldEmail.

Definition upper (c : ascii) : ascii :=
  let n := Ascii.nat_of_ascii c in
  if (97 <=? n)%nat && (n <=? 122)%nat then Ascii.ascii_of_nat (n - 32) else c.

Fixpoint foldName (s : string) : string :=
  match s with
  | EmptyString => EmptyString
  | String c s => String (upper c) (foldName s)
  end.

(** The field an object key is stored into: the one whose tag is the key,
    or else the one whose tag equals the key up to letter case. *)
Definition fieldOf (key : string) : option field :=
  if bool_decide (key = "name") then Some fieldName
  else if bool_decide (key = "email") then Some fieldEmail
  else if bool_decide (foldName key = "NAME") then Some fieldName
  else if bool_decide (foldName key = "EMAIL") then Some fieldEmail
  else None.

Definition setField (f : field) (s : string) (req : createRequest) : createRequest :=
  match f with
  | fieldName => mkCreateRequest s (Email req)
  | fieldEmail => mkCreateRequest (Name req) s
  end.

(** One member of the object: an unknown key is skipped, null leaves the
    field as it is, a string is stored, any other value is a type error
    (the first one is kept and reported at the end). *)
Definition decodeMember (st : createRequest * option error) (kv : string * json)
    : createRequest * option error :=
  match fieldOf kv.1 with
  | None => st
  | Some f =>
      match kv.2 with
      | JNull => st
      | JString s => (setField f s st.1, st.2)
      | _ => (st.1, match st.2 with
                    | None => Some (OtherError "json: cannot unmarshal into Go struct field")
                    | Some e => Some e
                    end)
      end
  end.

(** [json.NewDecoder(r.Body).Decode(&req)] on a zero [req]: the decoder
    takes the first JSON value of the bytes the body delivers, and stops
    reading at its end. *)
Definition Decode (b : http.Body) : createRequest * option error :=
  let zero := mkCreateRequest "" "" in
  match jsonRead (http.pending b) with
  | None => (zero, Some (OtherError "json: invalid request body"))
  | Some JNull => (zero, None)
  | Some (JObject members) => foldl decodeMember (zero, None) members
  | Some _ => (zero, Some (OtherError "json: cannot unmarshal into Go value"))
  end.

(** *** Writing JSON *)

Definition jsonKey (k : string) : string := dquote +:+ k +:+ dquote +:+ ":".

(** [json.Marshal] of a (non-nil) [*model.Account]. *)
Definition marshalAccount (acc : model.Account) : option string :=
  match gotime.MarshalJSON (model.CreatedAt acc) with
  | None => None
  | Some created =>
      Some ("{" +:+ jsonKey "id" +:+ jsonQuote (model.ID acc)
            +:+ "," +:+ jsonKey "name" +:+ jsonQuote (model.Name acc)
            +:+ "," +:+ jsonKey "email" +:+ jsonQuote (model.Email acc)
            +:+ "," +:+ jsonKey "created_at" +:+ created +:+ "}")
  end.

Fixpoint marshalElems (accs : list model.Account) : option (list string) :=
  match accs with
  | [] => Some []
  | acc :: accs =>
      match marshalAccount acc, marshalElems accs with
      | Some e, Some es => Some (e :: es)
      | _, _ => None
      end
  end.

Fixpoint joinComma (l : list string) : string :=
  match l with
  | [] => ""
  | [e] => e
  | e :: l => e +:+ "," +:+ joinComma l
  end.

(** [json.Marshal] of a [[]*model.Account]: a nil slice is [null]. *)
Definition marshalAccounts (accs : option (list model.Account)) : option string :=
  match accs with
  | None => Some "null"
  | Some accs =>
      match marshalElems accs with
      | None => None
      | Some es => Some ("[" +:+ joinComma es +:+ "]")
      end
  end.

(** [writeJSON], given the outcome of marshalling [v]: the encoder writes
    the document and a newline, or nothing when marshalling failed (the
    error is dropped). *)
Definition writeJSON (status : Z) (marshalled : option string) : list http.Call :=
  [ http.HeaderSet "Content-Type" "application/json"; http.WriteHeader status ]
  ++ match marshalled with
     | Some doc => [ http.Write (doc +:+ newline) ]
     | None => []
     end.

(** *** The HTTP handlers *)

Definition createAccount (r : http.Request) : M (list http.Call) :=
  let '(req, err) := Decode (http.body r) in
  match err with
  | Some _ => ret (http.Error "invalid request body" http.StatusBadRequest)
  | None =>
      if bool_decide (Name req = "") || bool_decide (Email req = "") then
        ret (http.Error "name and email are required" http.StatusBadRequest)
      else
        res <- service.Create (service.mkInput (Name req) (Email req)) ;;
        match res with
        | Err _ => ret (http.Error "failed to create account" http.StatusInternalServerError)
        | Ok acc => ret (writeJSON http.StatusCreated (marshalAccount acc))
        end
  end.

Definition getAccount (id : string) : M (list http.Call) :=
  res <- service.GetByID id ;;
  match res with
  | Err err =>
      if errors_Is err ErrNotFound then
        ret (http.Error "account not found" http.StatusNotFound)
      else
        ret (http.Error "failed to get account" http.StatusInternalServerError)
  | Ok acc => ret (writeJSON http.StatusOK (marshalAccount acc))
  end.

Definition listAccounts : M (list http.Call) :=
  res <- service.List ;;
  match res with
  | Err _ => ret (http.Error "failed to list accounts" http.StatusInternalServerError)
  | Ok accounts => ret (writeJSON http.StatusOK (marshalAccounts accounts))
  end.

Definition handleAccounts : http.Handler := fun r =>
  if bool_decide (http.Method r = http.MethodPost) then createAccount r
  else if bool_decide (http.Method r = http.MethodGet) then listAccounts
  else ret (http.Error "method not allowed" http.StatusMethodNotAllowed).

Definition handleAccountByID : http.Handler := fun r =>
  if bool_decide (http.Method r ≠ http.MethodGet) then
    ret (http.Error "method not allowed" http.StatusMethodNotAllowed)
  else
    let id := TrimPrefix (http.Path r) "/accounts/" in
    if bool_decide (id = "") then
      ret (http.Error "missing account id" http.StatusBadRequest)
    else getAccount id.

(** *** The gRPC handlers *)

Definition CreateAccount (req : pb.CreateAccountRequest)
    : M (ret2 pb.CreateAccountResponse) :=
  if bool_decide (pb.GetName req = "") || bool_decide (pb.GetEmail req = "") then
    ret (None, Some (grpcstatus_Error codes.InvalidArgument "name and email are required"))
  else
    res <- service.Create (service.mkInput (pb.GetName req) (pb.GetEmail req)) ;;
    match res with
    | Err _ => ret (None, Some (grpcstatus_Error codes.Internal "failed to create account"))
    | Ok acc =>
        ret (Some (pb.mkCreateAccountResponse
                     (Some (pb.mkAccount (model.ID acc) (model.Name acc) (model.Email acc)
                                         (gotime.String (model.CreatedAt acc))))),
             None)
    end.

Definition GetAccount (req : pb.GetAccountRequest) : M (ret2 pb.GetAccountResponse) :=
  if bool_decide (pb.GetId req = "") then
    ret (None, Some (grpcstatus_Error codes.InvalidArgument "id is required"))
  else
    res <- service.GetByID (pb.GetId req) ;;
    match res with
    | Err err =>
        if errors_Is err ErrNotFound then
          ret (None, Some (grpcstatus_Error codes.NotFound "account not found"))
        else
          ret (None, Some (grpcstatus_Error codes.Internal "failed to get account"))
    | Ok acc =>
        ret (Some (pb.mkGetAccountResponse
                     (Some (pb.mkAccount (model.ID acc) (model.Name acc) (model.Email acc)
                                         (gotime.String (model.CreatedAt acc))))),
             None)
    end.

Definition ListAccounts (_ : pb.ListAccountsRequest) : M (ret2 pb.ListAccountsResponse) :=
  res <- service.List ;;
  match res with
  | Err _ => ret (None, Some (grpcstatus_Error codes.Internal "failed to list accounts"))
  | Ok accounts =>
      let pbAccounts :=
        foldl (fun pbs acc =>
                 pbs ++ [pb.mkAccount (model.ID acc) (model.Name acc) (model.Email acc)
                                      (gotime.String (model.CreatedAt acc))])
              [] (default [] accounts) in
      ret (Some (pb.mkListAccountsResponse (Some pbAccounts)), None)
  end.
End handler.
End handler.

(** ** Package middleware *)

Module middleware.

(** [responseRecorder]: the wrapped writer, the last status passed to
    [WriteHeader] and a copy of everything written.  [Header] is the
    wrapped writer's own, through the embedding. *)
Record responseRecorder (W : Type) := mkRecorder {
  ResponseWriter : W;
  status : Z;
  body : string;
}.
Arguments mkRecorder {W}.
Arguments ResponseWriter {W}.
Arguments status {W}.
Arguments body {W}.

#[global] Instance recorder_writer {W} `{http.ResponseWriter W}
    : http.ResponseWriter (responseRecorder W) := {
  doHeaderSet k v r :=
    mkRecorder (http.doHeaderSet k v (ResponseWriter r)) (status r) (body r);
  doWriteHeader s r :=
    mkRecorder (http.doWriteHeader s (ResponseWriter r)) s (body r);
  doWrite b r :=
    mkRecorder (http.doWrite b (ResponseWriter r)) (status r) (body r +:+ b);
}.

(** [json.Marshal] of the values of a message type. *)
Class Marshaler (A : Type) := json_Marshal : A -> option string.

Record UnaryServerInfo := mkInfo { FullMethod : string }.

(** A unary handler: from the request (an [any], possibly nil) to the
    response (an [any], possibly nil) and the error. *)
Definition UnaryHandler (Req Resp : Type) : Type := option Req -> M (ret2 Resp).

Section middleware.
Context {env : Env}.

Definition compactJSON (b : string) : string :=
  let trimmed := bytesTrimSpace b in
  if bool_decide (String.length trimmed = 0%nat) then "<empty>"
  else match jsonCompact trimmed with
       | Some buf => buf
       | None => trimmed
       end.

(** [Logging(next)], as the calls that reach the writer it is given. *)
Definition Logging (next : http.Handler) : http.Handler := fun r =>
  start <- time_Now ;;
  let '(reqBody, r) :=
    match http.body r with
    | http.NoBody => ("", r)
    | b =>
        let '(raw, err, drained) := http.ReadAll b in
        match err with
        | None =>
            (compactJSON raw,
             http.mkRequest (http.Method r) (http.Path r) (http.NewReader raw))
        | Some _ => ("", http.mkRequest (http.Method r) (http.Path r) drained)
        end
    end in
  let rec := mkRecorder ([] : list http.Call) http.StatusOK "" in
  rec <- http.ServeHTTP next rec r ;;
  elapsed <- time_Since start ;;
  let respBody := compactJSON (body rec) in
  _ <- log_Print (LogHTTP (http.Method r) (http.Path r) reqBody (status rec)
                          respBody elapsed) ;;
  ret (ResponseWriter rec).

Definition marshalProto {A} `{Marshaler A} (v : option A) : string :=
  match v with
  | None => "<nil>"
  | Some v =>
      match json_Marshal v with
      | None => "<unmarshalable>"
      | Some b => b
      end
  end.

Definition GRPCLogging {Req Resp} `{Marshaler Req} `{Marshaler Resp}
    (req : option Req) (info : UnaryServerInfo) (handler : UnaryHandler Req Resp)
    : M (ret2 Resp) :=
  start <- time_Now ;;
  res <- handler req ;;
  elapsed <- time_Since start ;;
  let code := status_Code res.2 in
  _ <- log_Print (LogGRPC (FullMethod info) (marshalProto req) code
                          (marshalProto res.1) elapsed) ;;
  ret res.
End middleware.
End middleware.

(** ** Reachable store states *)

Inductive StoreOp :=
  | OpCreate (acc : model.Account)
  | OpGetByID (id : string)
  | OpList.

Definition storeStep {env : Env} (w : World) (o : StoreOp) : World :=
  match o with
  | OpCreate acc => (store.Create acc w).2
  | OpGetByID id => (store.GetByID id w).2
  | OpList => (store.List w).2
  end.

Definition storeRun {env : Env} (start : World) (ops : list StoreOp) : World :=
  foldl storeStep start ops.

(** Every entry is filed under the ID of its account. *)
Definition keyedByID (m : gmap string model.Account) : Prop :=
  map_Forall (fun k acc => model.ID acc = k) m.

(** The Account JSON document of [acc] whose created_at member is the
    string [created]. *)
Definition accountDoc {env : Env} (acc : model.Account) (created : string) : string :=
  "{" +:+ handler.jsonKey "id" +:+ jsonQuote (model.ID acc)
  +:+ "," +:+ handler.jsonKey "name" +:+ jsonQuote (model.Name acc)
  +:+ "," +:+ handler.jsonKey "email" +:+ jsonQuote (model.Email acc)
  +:+ "," +:+ handler.jsonKey "created_at" +:+ dquote +:+ created +:+ dquote +:+ "}".

(** The message the RPC adapter builds for [acc] when its created_at text is
    [created]. *)
Definition pbAccount (acc : model.Account) (created : string) : pb.Account :=
  pb.mkAccount (model.ID acc) (model.Name acc) (model.Email acc) created.

(** The two texts of an instant, each as date, separator, time of day and
    zone. *)
Definition rpcText (t : gotime.Time) : string :=
  gotime.Format t gotime.DateOnly +:+ " " +:+ gotime.Format t gotime.ClockNano
  +:+ " +0000 UTC".

Definition httpText (t : gotime.Time) : string :=
  gotime.Format t gotime.DateOnly +:+ "T" +:+ gotime.Format t gotime.ClockNano +:+ "Z".

(** The member values the request struct can take: a string or null. *)
Definition stringOrNull (v : json) : bool :=
  match v with
  | JNull | JString _ => true
  | _ => false
  end.

(** No key of the object is stored into field [f]. *)
Definition lacksField (f : handler.field) (members : list (string * json)) : Prop :=
  Forall (fun kv => handler.fieldOf kv.1 ≠ Some f) members.

(** Every value under a key of one of the two fields is a string or null. *)
Definition fieldsWellTyped (members : list (string * json)) : Prop :=
  Forall (fun kv => match handler.fieldOf kv.1 with
                    | Some _ => stringOrNull kv.2 = true
                    | None => True
                    end) members.

(** The clock never runs backwards. *)
Definition clockMonotone {env : Env} : Prop :=
  forall i j : nat, (i <= j)%nat ->
    gotime.unixNano (timeNow i) <= gotime.unixNano (timeNow j).

(** ** A concrete environment, for running the model *)

Definition aliceDoc : string :=
  "{" +:+ dquote +:+ "name" +:+ dquote +:+ ":" +:+ dquote +:+ "Alice" +:+ dquote
  +:+ "," +:+ dquote +:+ "email" +:+ dquote +:+ ":" +:+ dquote
  +:+ "alice@example.com" +:+ dquote +:+ "}".

Definition emailNumberDoc : string :=
  "{" +:+ dquote +:+ "email" +:+ dquote +:+ ":5}".

Definition upperKeysDoc : string :=
  "{" +:+ dquote +:+ "NAME" +:+ dquote +:+ ":" +:+ dquote +:+ "Alice" +:+ dquote
  +:+ "," +:+ dquote +:+ "EMAIL" +:+ dquote +:+ ":" +:+ dquote
  +:+ "alice@example.com" +:+ dquote +:+ "}".

Definition sampleEnv : Env := {|
  timeNow n := gotime.mkTime (1700000000000000000 + 1000 * Z.of_nat n);
  uuidNew n := "uuid-" +:+ String (Ascii.ascii_of_nat (97 + n)) EmptyString;
  mapSeed n := n;
  jsonRead s :=
    if bool_decide (s = aliceDoc) then
      Some (JObject [("name", JString "Alice"); ("email", JString "alice@example.com")])
    else if bool_decide (s = emailNumberDoc) then Some (JObject [("email", JNumber "5")])
    else if bool_decide (s = upperKeysDoc) then
      Some (JObject [("NAME", JString "Alice"); ("EMAIL", JString "alice@example.com")])
    else if bool_decide (s = "{}") then Some (JObject [])
    else None;
  jsonQuote s := dquote +:+ s +:+ dquote;
  jsonCompact s := Some s;
  bytesTrimSpace s := s;
|}.

(** ** Callers of the service: several creations in a row *)

Fixpoint createAll {env : Env} (inputs : list service.CreateAccountInput) (w : World)
    : World :=
  match inputs with
  | [] => w
  | input :: inputs => createAll inputs (service.Create input w).2
  end.

(** The identifiers the next [n] creations draw. *)
Definition drawnIDs {env : Env} (w : World) (n : nat) : list string :=
  uuidNew <$> seq (uuidDraws w) n.

(** ** What the logging middleware sees of a handler's calls *)

(** The status a recorder ends with: that of the last [WriteHeader], or the
    one it started with. *)
Fixpoint lastStatus (init : Z) (calls : list http.Call) : Z :=
  match calls with
  | [] => init
  | http.WriteHeader s :: calls => lastStatus s calls
  | _ :: calls => lastStatus init calls
  end.

(** All the bytes written, in order. *)
Fixpoint writtenBytes (calls : list http.Call) : string :=
  match calls with
  | [] => ""
  | http.Write b :: calls => b +:+ writtenBytes calls
  | _ :: calls => writtenBytes calls
  end.

(** The request as the wrapped handler receives it: unchanged, except that
    a body whose reading failed has been consumed. *)
Definition forwardedRequest (r : http.Request) : http.Request :=
  match http.body r with
  | http.Reader _ (Some e) =>
      http.mkRequest (http.Method r) (http.Path r) (http.Reader "" (Some e))
  | _ => r
  end.

(** The request field of the log line. *)
Definition loggedRequestBody {env : Env} (r : http.Request) : string :=
  match http.body r with
  | http.Reader data None => middleware.compactJSON data
  | _ => ""
  end.

(** The calls of one reply of the HTTP adapter: an [http.Error] or a
    [writeJSON]. *)
Definition isReply (calls : list http.Call) : Prop :=
  (exists (msg : string) (code : Z), calls = http.Error msg code)
  \/ (exists (st : Z) (m : option string), calls = handler.writeJSON st m).

(** * Properties *)

(** ** The store *)

Section store_facts.
Context {env : Env}.

Lemma shuffle_Permutation {A} (fuel seed : nat) (l : list A) :
  length l = fuel -> shuffle fuel seed l ≡ₚ l.
Proof.
  revert seed l. induction fuel as [|fuel IH]; intros seed l Hlen.
  - destruct l; [reflexivity | discriminate].
  - cbn [shuffle].
    assert (Hk : (seed mod length l < length l)%nat)
      by (apply Nat.mod_upper_bound; lia).
    destruct (lookup_lt_is_Some_2 l _ Hk) as [x Hx]. rewrite Hx.
    etrans; [|symmetry; exact (delete_Permutation l _ x Hx)].
    constructor. apply IH. rewrite length_delete by eauto. lia.
Qed.

(** Every order of the entries is the order of some seed. *)
Lemma shuffle_reaches_every_order {A} (l' l : list A) :
  l ≡ₚ l' -> exists seed : nat, shuffle (length l) seed l = l'.
Proof.
  revert l. induction l' as [|x t IH]; intros l Hperm.
  - apply Permutation_nil_r in Hperm as ->. by exists 0%nat.
  - assert (Hx : x ∈ l) by (rewrite Hperm; left).
    apply list_elem_of_lookup in Hx as [k Hk].
    assert (Hlt : (k < length l)%nat) by (by eapply lookup_lt_Some).
    assert (Hrest : delete k l ≡ₚ t).
    { apply (Permutation_cons_inv (a:=x)).
      by rewrite <- (delete_Permutation l k x Hk). }
    destruct (IH _ Hrest) as [seed' Hseed'].
    exists (k + length l * seed')%nat.
    destruct (length l) as [|n] eqn:Hlen; [lia|].
    cbn [shuffle]. rewrite Hlen.
    assert (Hmod : ((k + S n * seed') mod S n = k)%nat).
    { rewrite (Nat.mul_comm (S n)), Nat.Div0.mod_add. by apply Nat.mod_small. }
    assert (Hdiv : ((k + S n * seed') / S n = seed')%nat).
    { rewrite (Nat.mul_comm (S n)), Nat.div_add by lia.
      rewrite Nat.div_small by lia. lia. }
    rewrite Hmod, Hdiv, Hk. f_equal.
    rewrite <- Hseed'. f_equal. rewrite length_delete by eauto. lia.
Qed.

Lemma foldl_snoc_values {K V} (kvs : list (K * V)) (acc : list V) :
  foldl (fun accs kv => accs ++ [kv.2]) acc kvs = acc ++ kvs.*2.
Proof.
  revert acc. induction kvs as [|kv kvs IH]; intros acc; simpl.
  - by rewrite app_nil_r.
  - rewrite IH. by rewrite <- app_assoc.
Qed.

(** What [List] returns, up to order: the accounts of the map. *)
Lemma List_spec (w : World) :
  exists l, store.List w
            = (Ok (Some l),
               mkWorld (accounts w) (clockReads w) (uuidDraws w) (S (mapRanges w)) (logged w))
            /\ l ≡ₚ (map_to_list (accounts w)).*2.
Proof.
  eexists. split; [reflexivity|].
  rewrite foldl_snoc_values. simpl.
  unfold rangeMap. by rewrite shuffle_Permutation.
Qed.

Lemma storeStep_keeps_keyed (w : World) (o : StoreOp) :
  keyedByID (accounts w) -> keyedByID (accounts (storeStep w o)).
Proof.
  destruct o as [acc|id|]; simpl; intros Hk.
  - by apply map_Forall_insert_2.
  - unfold store.GetByID. by destruct (accounts w !! id).
  - exact Hk.
Qed.

Lemma storeRun_keeps_keyed (ops : list StoreOp) (w : World) :
  keyedByID (accounts w) -> keyedByID (accounts (storeRun w ops)).
Proof.
  revert w. induction ops as [|o ops IH]; intros w Hk; [exact Hk|].
  apply IH. by apply storeStep_keeps_keyed.
Qed.
End store_facts.

(** C6.  For every account record and every store state, the store's
    [Create] files the record under its ID, whatever was stored under that
    ID before (no check is made), leaves every other entry and the rest of
    the world as they were, returns exactly the record it was handed, and
    never returns an error. *)
Theorem store_Create_inserts (acc : model.Account) (w : World) :
  (store.Create acc w).1 = Ok acc
  /\ accounts (store.Create acc w).2 = <[model.ID acc := acc]> (accounts w)
  /\ accounts (store.Create acc w).2 !! model.ID acc = Some acc
  /\ delete (model.ID acc) (accounts (store.Create acc w).2)
     = delete (model.ID acc) (accounts w)
  /\ clockReads (store.Create acc w).2 = clockReads w
  /\ uuidDraws (store.Create acc w).2 = uuidDraws w
  /\ mapRanges (store.Create acc w).2 = mapRanges w
  /\ logged (store.Create acc w).2 = logged w.
Proof.
  cbn [store.Create fst snd accounts clockReads uuidDraws mapRanges logged].
  split_and!; try reflexivity.
  - apply lookup_insert_eq.
  - apply delete_insert_eq.
Qed.

(** C8.  For every store state, two calls of the store's [List] with no
    create in between both succeed and return the same records, possibly in
    a different order; listing does not change the stored accounts. *)
Theorem store_List_twice_same_records {env : Env} (w : World) :
  exists l1 l2 : list model.Account,
    (store.List w).1 = Ok (Some l1)
    /\ (store.List (store.List w).2).1 = Ok (Some l2)
    /\ l1 ≡ₚ l2
    /\ accounts (store.List w).2 = accounts w.
Proof.
  destruct (List_spec w) as (l1 & E1 & P1).
  destruct (List_spec (store.List w).2) as (l2 & E2 & P2).
  exists l1, l2. rewrite E2. rewrite E1 in P2 |- *. cbn [fst snd accounts] in *.
  split_and!; try reflexivity. by rewrite P1, P2.
Qed.

(** C9.  In every store state reached from an empty store by any sequence
    of create, get and list operations, each key of the map equals the ID of
    the account stored under it, and [GetByID id] returns either an account
    whose ID is [id] or the NotFound error. *)
Theorem reachable_store_keyed_by_ID {env : Env}
    (ops : list StoreOp) (c u m : nat) (l : list LogLine) (id : string) :
  keyedByID (accounts (storeRun (mkWorld ∅ c u m l) ops))
  /\ match (store.GetByID id (storeRun (mkWorld ∅ c u m l) ops)).1 with
     | Ok acc => model.ID acc = id
     | Err e => e = ErrNotFound
     end.
Proof.
  assert (Hk : keyedByID (accounts (storeRun (mkWorld ∅ c u m l) ops))).
  { apply storeRun_keeps_keyed. apply map_Forall_empty. }
  split; [exact Hk|].
  unfold store.GetByID.
  destruct (accounts (storeRun (mkWorld ∅ c u m l) ops) !! id) as [acc|] eqn:E;
    cbn [fst]; [|reflexivity].
  exact (Hk id acc E).
Qed.

(** ** The HTTP and gRPC adapters *)

Lemma substring_all (s : string) : String.substring 0 (String.length s) s = s.
Proof. induction s as [|c s IH]; [reflexivity|]. simpl. by rewrite IH. Qed.

Lemma TrimPrefix_accounts (id : string) :
  TrimPrefix ("/accounts/" +:+ id) "/accounts/" = id.
Proof.
  unfold TrimPrefix, drop_string.
  change ("/accounts/" +:+ id)
    with (String "/" (String "a" (String "c" (String "c" (String "o" (String "u"
           (String "n" (String "t" (String "s" (String "/" id)))))))))).
  cbn [String.prefix String.length Nat.sub String.substring].
  repeat (destruct (Ascii.ascii_dec _ _) as [_|]; [|congruence]).
  replace (String.prefix "" id) with true by (by destruct id).
  rewrite Nat.sub_0_r. apply substring_all.
Qed.

(** What the client sees of an [http.Error] reply. *)
Lemma Error_response (msg : string) (code : Z) :
  http.status (foldl http.call http.newResponse (http.Error msg code)) = code
  /\ http.written (foldl http.call http.newResponse (http.Error msg code))
     = msg +:+ newline.
Proof. split; reflexivity. Qed.


(** C3.  For every store state and every id, the store's [GetByID] returns
    the stored record when the id is present and the NotFound error, and no
    other, when it is absent, leaving the world as it was.  For an absent
    (non-empty) id the RPC adapter answers with status NotFound and the HTTP
    adapter with 404. *)
Theorem get_found_or_NotFound {env : Env} (w : World) (id : string) :
  store.GetByID id w
  = (match accounts w !! id with
     | Some acc => Ok acc
     | None => Err ErrNotFound
     end, w)
  /\ (accounts w !! id = None -> id ≠ "" ->
      handler.GetAccount (pb.mkGetAccountRequest id) w
      = ((None, Some (StatusError codes.NotFound "account not found")), w)
      /\ forall b : http.Body,
          exists resp : http.response,
            http.respond handler.handleAccountByID
              (http.mkRequest http.MethodGet ("/accounts/" +:+ id) b) w = (resp, w)
            /\ http.status resp = http.StatusNotFound
            /\ http.written resp = "account not found" +:+ newline).
Proof.
  split.
  - unfold store.GetByID. by destruct (accounts w !! id).
  - intros Habsent Hid. split.
    + unfold handler.GetAccount. cbn [pb.GetId].
      rewrite bool_decide_eq_false_2 by exact Hid.
      unfold bind, service.GetByID, store.GetByID. by rewrite Habsent.
    + intros b. eexists. split_and!.
      * unfold http.respond, http.ServeHTTP, handler.handleAccountByID, bind.
        cbn [http.Method http.Path].
        rewrite bool_decide_eq_false_2 by (intros Hne; by apply Hne).
        rewrite TrimPrefix_accounts.
        rewrite bool_decide_eq_false_2 by exact Hid.
        unfold handler.getAccount, bind, service.GetByID, store.GetByID.
        rewrite Habsent. reflexivity.
      * reflexivity.
      * reflexivity.
Qed.

Lemma get_found_or_NotFound_witness :
  handler.GetAccount (pb.mkGetAccountRequest "nobody") NewWorld
  = ((None, Some (StatusError codes.NotFound "account not found")), NewWorld).
Proof.
  destruct (get_found_or_NotFound (env:=sampleEnv) NewWorld "nobody") as [_ Hadapters].
  destruct Hadapters as [Hrpc _]; [reflexivity | discriminate | exact Hrpc].
Defined.

(** C5.  When the store holds no accounts, the store's [List] succeeds with
    an empty slice that is not nil, and GET /accounts answers 200 with the
    JSON array [[]] (not [null]). *)
Theorem list_of_empty_store {env : Env} (w : World) (b : http.Body) :
  accounts w = ∅ ->
  (store.List w).1 = Ok (Some [])
  /\ http.status
       (http.respond handler.handleAccounts (http.mkRequest http.MethodGet "/accounts" b) w).1
     = http.StatusOK
  /\ http.written
       (http.respond handler.handleAccounts (http.mkRequest http.MethodGet "/accounts" b) w).1
     = "[]" +:+ newline.
Proof.
  intros Hempty.
  assert (HList : store.List w
                  = (Ok (Some []),
                     mkWorld (accounts w) (clockReads w) (uuidDraws w)
                             (S (mapRanges w)) (logged w))).
  { unfold store.List, rangeMap. rewrite Hempty, map_to_list_empty. reflexivity. }
  split; [by rewrite HList|].
  unfold http.respond, http.ServeHTTP, handler.handleAccounts, bind.
  cbn [http.Method].
  rewrite bool_decide_eq_false_2 by discriminate.
  rewrite bool_decide_eq_true_2 by reflexivity.
  unfold handler.listAccounts, bind, service.List. rewrite HList.
  split; reflexivity.
Qed.

Lemma list_of_empty_store_witness :
  (store.List (env:=sampleEnv) NewWorld).1 = Ok (Some []).
Proof.
  apply (list_of_empty_store (env:=sampleEnv) NewWorld http.NoBody). reflexivity.
Defined.

(** C2.  With a clock that never runs backwards: for every non-empty name
    and non-empty email, the service's [Create] succeeds, and [GetByID] with
    the id of the returned account yields that record, whose name and email
    are the inputs and whose created_at is not before the instant read just
    before the [Create] call. *)
Theorem create_then_get {env : Env} (name email : string) (w : World) :
  clockMonotone -> name ≠ "" -> email ≠ "" ->
  exists (acc : model.Account) (w1 : World),
    service.Create (service.mkInput name email) (time_Now w).2 = (Ok acc, w1)
    /\ service.GetByID (model.ID acc) w1 = (Ok acc, w1)
    /\ model.Name acc = name
    /\ model.Email acc = email
    /\ gotime.Before (model.CreatedAt acc) (time_Now w).1 = false.
Proof.
  intros Hclock _ _.
  eexists _, _. split; [reflexivity|].
  cbn [model.ID model.Name model.Email model.CreatedAt service.Name service.Email
       time_Now uuid_New fst snd clockReads uuidDraws].
  split_and!; try reflexivity.
  - unfold service.GetByID, store.GetByID. cbn [accounts].
    by rewrite lookup_insert_eq.
  - unfold gotime.Before. apply Z.ltb_ge, Hclock. lia.
Qed.

Lemma create_then_get_witness :
  exists (acc : model.Account) (w1 : World),
    service.Create (env:=sampleEnv) (service.mkInput "Alice" "alice@example.com")
                   (time_Now (env:=sampleEnv) NewWorld).2 = (Ok acc, w1)
    /\ service.GetByID (model.ID acc) w1 = (Ok acc, w1)
    /\ model.Name acc = "Alice"
    /\ model.Email acc = "alice@example.com"
    /\ gotime.Before (model.CreatedAt acc) (time_Now (env:=sampleEnv) NewWorld).1 = false.
Proof.
  apply (create_then_get (env:=sampleEnv) "Alice" "alice@example.com" NewWorld).
  - intros i j Hij. simpl. lia.
  - discriminate.
  - discriminate.
Defined.

(** C4.  For every create request in which name or email is the empty
    string, the RPC adapter answers InvalidArgument and the HTTP adapter
    answers 400; in both cases the world is left exactly as it was: no
    identifier is drawn, the clock is not read and the store is unchanged,
    so the service's [Create] was not invoked. *)
Theorem empty_name_or_email_rejected {env : Env} (name email : string) (w : World) :
  name = "" \/ email = "" ->
  handler.CreateAccount (pb.mkCreateAccountRequest name email) w
  = ((None, Some (StatusError codes.InvalidArgument "name and email are required")), w)
  /\ forall r : http.Request,
      handler.Name (handler.Decode (http.body r)).1 = name ->
      handler.Email (handler.Decode (http.body r)).1 = email ->
      exists resp : http.response,
        http.respond handler.createAccount r w = (resp, w)
        /\ http.status resp = http.StatusBadRequest.
Proof.
  intros Hempty.
  assert (Hcheck : bool_decide (name = "") || bool_decide (email = "") = true).
  { destruct Hempty as [-> | ->].
    - reflexivity.
    - by rewrite orb_true_r. }
  split.
  - unfold handler.CreateAccount. cbn [pb.GetName pb.GetEmail]. by rewrite Hcheck.
  - intros r Hname Hemail.
    unfold http.respond, http.ServeHTTP, handler.createAccount, bind.
    destruct (handler.Decode (http.body r)) as [req [err|]]; cbn [fst] in *.
    + eexists. split; reflexivity.
    + rewrite Hname, Hemail, Hcheck. eexists. split; reflexivity.
Qed.

Lemma empty_name_or_email_rejected_witness :
  handler.CreateAccount (env:=sampleEnv) (pb.mkCreateAccountRequest "" "a@b.com") NewWorld
  = ((None, Some (StatusError codes.InvalidArgument "name and email are required")),
     NewWorld).
Proof.
  apply (empty_name_or_email_rejected (env:=sampleEnv) "" "a@b.com" NewWorld).
  left. reflexivity.
Defined.

(** ** Decoding the body of POST /accounts *)

Section decode_facts.
Context {env : Env}.

(** Members that are well typed never raise the decoder's error. *)
Lemma decodeMember_no_error (members : list (string * json))
    (st : handler.createRequest * option error) :
  fieldsWellTyped members -> st.2 = None ->
  (foldl handler.decodeMember st members).2 = None.
Proof.
  revert st. induction members as [|[k v] members IH]; intros st Hty Hst; [exact Hst|].
  apply Forall_cons in Hty as [Hkv Hty]. cbn [foldl]. apply IH; [exact Hty|].
  unfold handler.decodeMember. cbn [fst snd] in *.
  destruct (handler.fieldOf k); [|exact Hst].
  destruct v; try discriminate; exact Hst.
Qed.

Lemma decodeMember_keeps_Name (members : list (string * json))
    (st : handler.createRequest * option error) :
  lacksField handler.fieldName members ->
  handler.Name (foldl handler.decodeMember st members).1 = handler.Name st.1.
Proof.
  revert st. induction members as [|[k v] members IH]; intros st Hl; [reflexivity|].
  apply Forall_cons in Hl as [Hkv Hl]. cbn [foldl]. rewrite IH by exact Hl.
  unfold handler.decodeMember. cbn [fst snd] in *.
  destruct (handler.fieldOf k) as [[|]|]; try reflexivity; [congruence|].
  by destruct v.
Qed.

Lemma decodeMember_keeps_Email (members : list (string * json))
    (st : handler.createRequest * option error) :
  lacksField handler.fieldEmail members ->
  handler.Email (foldl handler.decodeMember st members).1 = handler.Email st.1.
Proof.
  revert st. induction members as [|[k v] members IH]; intros st Hl; [reflexivity|].
  apply Forall_cons in Hl as [Hkv Hl]. cbn [foldl]. rewrite IH by exact Hl.
  unfold handler.decodeMember. cbn [fst snd] in *.
  destruct (handler.fieldOf k) as [[|]|]; try reflexivity; [|congruence].
  by destruct v.
Qed.
End decode_facts.

(** C10, as stated, fails: the body [{"email":5}] is a JSON object
    without a name key, yet it is answered as a malformed body ("invalid
    request body"), not with the validation message. *)
Lemma object_without_name_answered_as_malformed :
  jsonRead (Env:=sampleEnv) emailNumberDoc = Some (JObject [("email", JNumber "5")])
  /\ Forall (fun kv : string * json => kv.1 ≠ "name") [("email", JNumber "5")]
  /\ http.status
       (http.respond (handler.createAccount (env:=sampleEnv))
          (http.mkRequest http.MethodPost "/accounts" (http.Reader emailNumberDoc None))
          NewWorld).1 = http.StatusBadRequest
  /\ http.written
       (http.respond (handler.createAccount (env:=sampleEnv))
          (http.mkRequest http.MethodPost "/accounts" (http.Reader emailNumberDoc None))
          NewWorld).1 = "invalid request body" +:+ newline
  /\ "invalid request body" +:+ newline ≠ "name and email are required" +:+ newline.
Proof.
  split_and!; try reflexivity.
  - repeat constructor. discriminate.
  - discriminate.
Qed.

(** Keys are matched up to letter case: the body
    [{"NAME":"Alice","EMAIL":"alice@example.com"}] has neither a [name] nor
    an [email] key, and creates an account. *)
Example upper_case_keys_create_an_account :
  http.status
    (http.respond (handler.createAccount (env:=sampleEnv))
       (http.mkRequest http.MethodPost "/accounts" (http.Reader upperKeysDoc None))
       NewWorld).1 = http.StatusCreated
  /\ accounts
       (http.respond (handler.createAccount (env:=sampleEnv))
          (http.mkRequest http.MethodPost "/accounts" (http.Reader upperKeysDoc None))
          NewWorld).2 !! "uuid-a"
     = Some (model.mkAccount "uuid-a" "Alice" "alice@example.com"
                             (gotime.mkTime 1700000000000000000)).
Proof. split; vm_compute; reflexivity. Qed.

(** C10, amended.  For POST /accounts, a body whose JSON value is an object
    in which no key is [name] up to letter case, or no key is [email] up to
    letter case, and in which every value under such a key is a string or
    null, is not treated as malformed: decoding succeeds, the absent field
    is the empty string, the handler answers 400 with the message
    [name and email are required], and the world is unchanged (no account is
    stored). *)
Theorem object_without_name_or_email_rejected {env : Env}
    (r : http.Request) (members : list (string * json)) (w : World) :
  jsonRead (http.pending (http.body r)) = Some (JObject members) ->
  fieldsWellTyped members ->
  lacksField handler.fieldName members \/ lacksField handler.fieldEmail members ->
  (handler.Decode (http.body r)).2 = None
  /\ (handler.Name (handler.Decode (http.body r)).1 = ""
      \/ handler.Email (handler.Decode (http.body r)).1 = "")
  /\ exists resp : http.response,
      http.respond handler.createAccount r w = (resp, w)
      /\ http.status resp = http.StatusBadRequest
      /\ http.written resp = "name and email are required" +:+ newline.
Proof.
  intros Hread Hty Hlacks.
  assert (Herr : (handler.Decode (http.body r)).2 = None).
  { unfold handler.Decode. rewrite Hread. by apply decodeMember_no_error. }
  assert (Hfield : handler.Name (handler.Decode (http.body r)).1 = ""
                   \/ handler.Email (handler.Decode (http.body r)).1 = "").
  { unfold handler.Decode. rewrite Hread. destruct Hlacks as [Hl|Hl].
    - left. by rewrite decodeMember_keeps_Name.
    - right. by rewrite decodeMember_keeps_Email. }
  split_and!; [exact Herr | exact Hfield |].
  unfold http.respond, http.ServeHTTP, handler.createAccount, bind.
  destruct (handler.Decode (http.body r)) as [req err]. cbn [fst snd] in *. subst err.
  assert (Hcheck : bool_decide (handler.Name req = "")
                   || bool_decide (handler.Email req = "") = true).
  { destruct Hfield as [-> | ->]; [reflexivity | by rewrite orb_true_r]. }
  rewrite Hcheck. eexists. split_and!; reflexivity.
Qed.

Lemma object_without_name_or_email_rejected_witness :
  exists resp : http.response,
    http.respond (handler.createAccount (env:=sampleEnv))
      (http.mkRequest http.MethodPost "/accounts" (http.Reader "{}" None)) NewWorld
    = (resp, NewWorld)
    /\ http.status resp = http.StatusBadRequest
    /\ http.written resp = "name and email are required" +:+ newline.
Proof.
  apply (object_without_name_or_email_rejected (env:=sampleEnv)
           (http.mkRequest http.MethodPost "/accounts" (http.Reader "{}" None)) []
           NewWorld).
  - reflexivity.
  - constructor.
  - left. constructor.
Defined.

(** ** The logging wrappers *)

Section logging_facts.
Context {env : Env}.

(** The recorder passes every call on to the writer it wraps. *)
Lemma recorder_forwards {W} `{http.ResponseWriter W}
    (calls : list http.Call) (rec : middleware.responseRecorder W) :
  middleware.ResponseWriter (foldl http.call rec calls)
  = foldl http.call (middleware.ResponseWriter rec) calls.
Proof.
  revert rec. induction calls as [|c calls IH]; intros rec; [reflexivity|].
  cbn [foldl]. rewrite IH. by destruct c.
Qed.

Lemma trace_writer_appends (calls t : list http.Call) :
  foldl http.call t calls = t ++ calls.
Proof.
  revert t. induction calls as [|c calls IH]; intros t; cbn [foldl].
  - by rewrite app_nil_r.
  - rewrite IH. destruct c; cbn; by rewrite <- app_assoc.
Qed.
End logging_facts.

(** C7, as stated, fails for a request whose body ends in a read error:
    POST /accounts with a body that delivers a complete JSON object and then
    fails is answered 201 by the handler alone (the account is stored), and
    400 behind the logging middleware (nothing is stored), because the
    middleware has consumed the body and does not restore it. *)
Lemma Logging_alters_a_failing_body :
  let r := http.mkRequest http.MethodPost "/accounts"
             (http.Reader aliceDoc (Some (OtherError "i/o timeout"))) in
  let direct := http.respond (handler.handleAccounts (env:=sampleEnv)) r
                  (time_Now (env:=sampleEnv) NewWorld).2 in
  let wrapped := http.respond
                   (middleware.Logging (env:=sampleEnv) (handler.handleAccounts (env:=sampleEnv)))
                   r NewWorld in
  http.status direct.1 = http.StatusCreated
  /\ size (accounts direct.2) = 1%nat
  /\ http.status wrapped.1 = http.StatusBadRequest
  /\ http.written wrapped.1 = "invalid request body" +:+ newline
  /\ accounts wrapped.2 = ∅.
Proof. split_and!; vm_compute; reflexivity. Qed.

(** C7, amended.  The logging wrappers do not alter the call's outcome.
    The gRPC interceptor returns exactly the response and error of the
    wrapped handler and leaves the store as the handler left it, adding one
    log line; when marshalling for the log fails the line carries the
    placeholder [<unmarshalable>].  For every request whose body is absent
    or reads to its end without error, the HTTP middleware hands the
    request, body included, to the wrapped handler and passes the handler's
    calls (headers, status, body bytes) to the writer unchanged, so that the
    client receives the handler's response.  The wrapped handler runs one
    clock reading later than it would alone. *)
Theorem logging_is_transparent {env : Env} :
  (forall (Req Resp : Type) (mq : middleware.Marshaler Req) (mp : middleware.Marshaler Resp)
          (req : option Req) (info : middleware.UnaryServerInfo)
          (h : middleware.UnaryHandler Req Resp) (w : World),
      let inner := h req (time_Now w).2 in
      let outer := middleware.GRPCLogging req info h w in
      outer.1 = inner.1
      /\ accounts outer.2 = accounts inner.2
      /\ uuidDraws outer.2 = uuidDraws inner.2
      /\ mapRanges outer.2 = mapRanges inner.2
      /\ exists elapsed : Z,
          logged outer.2
          = logged inner.2
            ++ [LogGRPC (middleware.FullMethod info) (middleware.marshalProto req)
                        (status_Code inner.1.2) (middleware.marshalProto inner.1.1)
                        elapsed])
  /\ (forall (A : Type) (m : middleware.Marshaler A) (v : A),
        middleware.json_Marshal v = None ->
        middleware.marshalProto (Some v) = "<unmarshalable>")
  /\ (forall (next : http.Handler) (r : http.Request) (w : World),
        http.readsToEnd (http.body r) ->
        let inner := next r (time_Now w).2 in
        let outer := middleware.Logging next r w in
        outer.1 = inner.1
        /\ (http.respond (middleware.Logging next) r w).1
           = (http.respond next r (time_Now w).2).1
        /\ accounts outer.2 = accounts inner.2
        /\ uuidDraws outer.2 = uuidDraws inner.2
        /\ mapRanges outer.2 = mapRanges inner.2
        /\ exists (reqBody respBody : string) (status elapsed : Z),
            logged outer.2
            = logged inner.2
              ++ [LogHTTP (http.Method r) (http.Path r) reqBody status respBody elapsed]).
Proof.
  split_and!.
  - intros Req Resp mq mp req info h w inner outer.
    subst inner outer.
    unfold middleware.GRPCLogging, bind, time_Since, bind, time_Now, log_Print, ret.
    destruct (h req _) as [res w2]. cbn [fst snd accounts uuidDraws mapRanges logged].
    split_and!; try reflexivity. eexists. reflexivity.
  - intros A m v Hfail. unfold middleware.marshalProto. by rewrite Hfail.
  - intros next r w Hend inner outer.
    assert (Hcalls : forall calls : list http.Call,
               middleware.ResponseWriter
                 (foldl http.call (middleware.mkRecorder ([] : list http.Call) http.StatusOK "")
                        calls) = calls).
    { intros calls. rewrite recorder_forwards. cbn [middleware.ResponseWriter].
      by rewrite trace_writer_appends. }
    assert (Hrun : exists (reqBody respBody : string) (status elapsed : Z),
               outer = (inner.1,
                        mkWorld (accounts inner.2) (S (clockReads inner.2))
                                (uuidDraws inner.2) (mapRanges inner.2)
                                (logged inner.2
                                 ++ [LogHTTP (http.Method r) (http.Path r) reqBody status
                                             respBody elapsed]))).
    { subst inner outer. destruct r as [meth path [|data [e|]]]; [|discriminate Hend|].
      - unfold middleware.Logging, bind, http.ServeHTTP, bind, time_Since, bind, log_Print, ret.
        cbn [http.body http.Method http.Path].
        destruct (time_Now w) as [start w1]. cbn [snd].
        destruct (next _ w1) as [calls w2]. cbn [fst snd time_Now].
        rewrite Hcalls. do 4 eexists. reflexivity.
      - unfold middleware.Logging, bind, http.ServeHTTP, bind, time_Since, bind, log_Print, ret.
        cbn [http.body http.Method http.Path http.ReadAll http.NewReader].
        destruct (time_Now w) as [start w1]. cbn [snd].
        destruct (next _ w1) as [calls w2]. cbn [fst snd time_Now].
        rewrite Hcalls. do 4 eexists. reflexivity. }
    destruct Hrun as (reqBody & respBody & status & elapsed & Hrun).
    assert (Hresp : (http.respond (middleware.Logging next) r w).1
                    = (http.respond next r (time_Now w).2).1).
    { unfold http.respond, http.ServeHTTP, bind. fold outer inner.
      rewrite Hrun. by destruct inner. }
    rewrite Hrun. cbn [fst snd accounts uuidDraws mapRanges logged].
    split_and!; try reflexivity; [exact Hresp|].
    by exists reqBody, respBody, status, elapsed.
Qed.

Lemma logging_is_transparent_witness :
  (http.respond (middleware.Logging (env:=sampleEnv) (handler.handleAccounts (env:=sampleEnv)))
     (http.mkRequest http.MethodPost "/accounts" (http.Reader aliceDoc None)) NewWorld).1
  = (http.respond (handler.handleAccounts (env:=sampleEnv))
       (http.mkRequest http.MethodPost "/accounts" (http.Reader aliceDoc None))
       (time_Now (env:=sampleEnv) NewWorld).2).1.
Proof.
  destruct (logging_is_transparent (env:=sampleEnv)) as (_ & _ & Hhttp).
  destruct (Hhttp (handler.handleAccounts (env:=sampleEnv))
              (http.mkRequest http.MethodPost "/accounts" (http.Reader aliceDoc None))
              NewWorld) as (_ & Hresp & _); [reflexivity | exact Hresp].
Defined.

(** ** The two textual forms of created_at *)

Lemma string_app_assoc (a b c : string) : (a +:+ b) +:+ c = a +:+ (b +:+ c).
Proof.
  induction a as [|x a IH]; [reflexivity|].
  change (String x ((a +:+ b) +:+ c) = String x (a +:+ (b +:+ c))).
  by rewrite IH.
Qed.

Lemma string_app_empty_r (s : string) : s +:+ "" = s.
Proof.
  induction s as [|c s IH]; [reflexivity|].
  change (String c (s +:+ "") = String c s). by rewrite IH.
Qed.

Lemma string_app_empty_l (s : string) : "" +:+ s = s.
Proof. reflexivity. Qed.

(** [Time.String] of a UTC instant: date, a space, time of day, and the
    zone as [+0000 UTC]. *)
Lemma String_date_clock (t : gotime.Time) :
  gotime.String t
  = gotime.Format t gotime.DateOnly +:+ " " +:+ gotime.Format t gotime.ClockNano
    +:+ " +0000 UTC".
Proof.
  unfold gotime.String, gotime.Format.
  set (render := gotime.appendStd t).
  cbv -[String.append render].
  rewrite !string_app_assoc, !string_app_empty_r, !string_app_empty_l.
  subst render. reflexivity.
Qed.

(** The RFC 3339 text of a UTC instant: date, the letter T, time of day,
    and the zone as [Z]. *)
Lemma RFC3339Nano_date_clock (t : gotime.Time) :
  gotime.Format t gotime.RFC3339Nano
  = gotime.Format t gotime.DateOnly +:+ "T" +:+ gotime.Format t gotime.ClockNano +:+ "Z".
Proof.
  unfold gotime.Format.
  set (render := gotime.appendStd t).
  cbv -[String.append render].
  rewrite !string_app_assoc, !string_app_empty_r, !string_app_empty_l.
  subst render. reflexivity.
Qed.

(** The two texts of one instant are never the same string. *)
Lemma String_is_not_RFC3339Nano (t : gotime.Time) :
  gotime.String t ≠ gotime.Format t gotime.RFC3339Nano.
Proof.
  rewrite String_date_clock, RFC3339Nano_date_clock. intros Heq.
  apply (inj (String.append _)) in Heq. discriminate Heq.
Qed.

Section created_at_facts.
Context {env : Env}.

Lemma marshalAccount_doc (acc : model.Account) :
  0 <= gotime.Year (model.CreatedAt acc) < 10000 ->
  handler.marshalAccount acc = Some (accountDoc acc (httpText (model.CreatedAt acc))).
Proof.
  intros [Hlo Hhi]. unfold handler.marshalAccount, gotime.MarshalJSON.
  rewrite (proj2 (Z.ltb_ge _ _)) by exact Hlo.
  rewrite (proj2 (Z.leb_gt _ _)) by exact Hhi.
  cbn [orb]. unfold accountDoc, httpText. rewrite RFC3339Nano_date_clock.
  rewrite !string_app_assoc. reflexivity.
Qed.

Lemma foldl_snoc_map {A B} (f : A -> B) (l : list A) (init : list B) :
  foldl (fun bs a => bs ++ [f a]) init l = init ++ map f l.
Proof.
  revert init. induction l as [|a l IH]; intros init; simpl.
  - by rewrite app_nil_r.
  - rewrite IH. by rewrite <- app_assoc.
Qed.

(** What [ListAccounts] answers: the messages of the stored accounts, in
    the order of the listing. *)
Lemma ListAccounts_spec (w : World) :
  exists l : list model.Account,
    l ≡ₚ (map_to_list (accounts w)).*2
    /\ (handler.ListAccounts pb.mkListAccountsRequest w).1
       = (Some (pb.mkListAccountsResponse
                  (Some (map (fun acc => pbAccount acc (gotime.String (model.CreatedAt acc)))
                             l))),
          None).
Proof.
  destruct (List_spec w) as (l & El & Pl). exists l. split; [exact Pl|].
  unfold handler.ListAccounts, bind, service.List. rewrite El.
  cbn [default]. rewrite foldl_snoc_map. reflexivity.
Qed.
End created_at_facts.

(** C1, as stated, fails: for the account created at 2023-11-14 22:13:20
    UTC the RPC adapter shows created_at as
    [2023-11-14 22:13:20 +0000 UTC], in its CreateAccount and its GetAccount
    response, while the HTTP adapter's JSON shows [2023-11-14T22:13:20Z]. *)
Lemma created_at_differs_between_transports :
  let created := handler.CreateAccount (env:=sampleEnv)
                   (pb.mkCreateAccountRequest "Alice" "alice@example.com") NewWorld in
  let acc := model.mkAccount "uuid-a" "Alice" "alice@example.com"
                             (gotime.mkTime 1700000000000000000) in
  created.1 = (Some (pb.mkCreateAccountResponse
                       (Some (pbAccount acc "2023-11-14 22:13:20 +0000 UTC"))), None)
  /\ accounts created.2 !! "uuid-a" = Some acc
  /\ (handler.GetAccount (pb.mkGetAccountRequest "uuid-a") created.2).1
     = (Some (pb.mkGetAccountResponse
                (Some (pbAccount acc "2023-11-14 22:13:20 +0000 UTC"))), None)
  /\ http.written
       (http.respond (handler.handleAccountByID (env:=sampleEnv))
          (http.mkRequest http.MethodGet "/accounts/uuid-a" http.NoBody) created.2).1
     = accountDoc (env:=sampleEnv) acc "2023-11-14T22:13:20Z" +:+ newline
  /\ "2023-11-14 22:13:20 +0000 UTC" ≠ "2023-11-14T22:13:20Z".
Proof. split_and!; try (vm_compute; reflexivity). discriminate. Qed.

(** C1, amended.  For every stored account (created in the years 0 to
    9999), the RPC adapter shows created_at in the form of [Time.String],
    date, a space, time of day and [+0000 UTC], and does so alike in its
    GetAccount and ListAccounts responses and, for an account it creates, in
    its CreateAccount response; the HTTP adapter's JSON shows the RFC 3339
    form of the same instant, date, the letter T, time of day and [Z].  The
    two strings carry the same date and time-of-day text and are never the
    same string. *)
Theorem created_at_text_per_transport {env : Env}
    (w : World) (id : string) (acc : model.Account) :
  accounts w !! id = Some acc ->
  id ≠ "" ->
  0 <= gotime.Year (model.CreatedAt acc) < 10000 ->
  (handler.GetAccount (pb.mkGetAccountRequest id) w).1
  = (Some (pb.mkGetAccountResponse (Some (pbAccount acc (rpcText (model.CreatedAt acc))))),
     None)
  /\ (exists l : list pb.Account,
        (handler.ListAccounts pb.mkListAccountsRequest w).1
        = (Some (pb.mkListAccountsResponse (Some l)), None)
        /\ pbAccount acc (rpcText (model.CreatedAt acc)) ∈ l)
  /\ http.written
       (http.respond handler.handleAccountByID
          (http.mkRequest http.MethodGet ("/accounts/" +:+ id) http.NoBody) w).1
     = accountDoc acc (httpText (model.CreatedAt acc)) +:+ newline
  /\ rpcText (model.CreatedAt acc) ≠ httpText (model.CreatedAt acc)
  /\ (forall (name email : string) (w0 : World),
        name ≠ "" -> email ≠ "" ->
        let new := model.mkAccount (uuidNew (uuidDraws w0)) name email
                                   (timeNow (clockReads w0)) in
        (handler.CreateAccount (pb.mkCreateAccountRequest name email) w0).1
        = (Some (pb.mkCreateAccountResponse
                   (Some (pbAccount new (rpcText (model.CreatedAt new))))), None)
        /\ accounts (handler.CreateAccount (pb.mkCreateAccountRequest name email) w0).2
             !! model.ID new = Some new).
Proof.
  intros Hstored Hid Hyear. split_and!.
  - unfold handler.GetAccount. cbn [pb.GetId].
    rewrite bool_decide_eq_false_2 by exact Hid.
    unfold bind, service.GetByID, store.GetByID. rewrite Hstored.
    cbn [ret fst]. unfold pbAccount, rpcText. by rewrite String_date_clock.
  - destruct (ListAccounts_spec w) as (l & Pl & El).
    eexists. split; [exact El|].
    assert (Hin : acc ∈ l).
    { rewrite Pl. apply list_elem_of_fmap. exists (id, acc). split; [reflexivity|].
      by apply elem_of_map_to_list. }
    apply list_elem_of_fmap. exists acc. split; [|exact Hin].
    unfold pbAccount, rpcText. by rewrite String_date_clock.
  - unfold http.respond, http.ServeHTTP, handler.handleAccountByID, bind.
    cbn [http.Method http.Path].
    rewrite bool_decide_eq_false_2 by (intros Hne; by apply Hne).
    rewrite TrimPrefix_accounts.
    rewrite bool_decide_eq_false_2 by exact Hid.
    unfold handler.getAccount, bind, service.GetByID, store.GetByID.
    rewrite Hstored. cbn [ret fst]. rewrite marshalAccount_doc by exact Hyear.
    reflexivity.
  - unfold rpcText, httpText. intros Heq.
    apply (inj (String.append _)) in Heq. discriminate Heq.
  - intros name email w0 Hname Hemail new. subst new.
    unfold handler.CreateAccount. cbn [pb.GetName pb.GetEmail].
    rewrite !bool_decide_eq_false_2 by assumption. cbn [orb].
    unfold bind, service.Create, bind, uuid_New, time_Now, store.Create, ret.
    cbn [fst snd accounts model.ID model.CreatedAt service.Name service.Email].
    split.
    + unfold pbAccount, rpcText. cbn [model.ID model.Name model.Email model.CreatedAt].
      by rewrite String_date_clock.
    + apply lookup_insert_eq.
Qed.

Lemma created_at_text_per_transport_witness :
  (handler.GetAccount (pb.mkGetAccountRequest "uuid-a")
     (handler.CreateAccount (env:=sampleEnv)
        (pb.mkCreateAccountRequest "Alice" "alice@example.com") NewWorld).2).1
  = (Some (pb.mkGetAccountResponse
             (Some (pbAccount
                      (model.mkAccount "uuid-a" "Alice" "alice@example.com"
                                       (gotime.mkTime 1700000000000000000))
                      (rpcText (gotime.mkTime 1700000000000000000))))),
     None).
Proof.
  apply (created_at_text_per_transport (env:=sampleEnv)
           (handler.CreateAccount (env:=sampleEnv)
              (pb.mkCreateAccountRequest "Alice" "alice@example.com") NewWorld).2
           "uuid-a"
           (model.mkAccount "uuid-a" "Alice" "alice@example.com"
                            (gotime.mkTime 1700000000000000000))).
  - vm_compute. reflexivity.
  - discriminate.
  - vm_compute. split; [intros Hgt; discriminate Hgt | reflexivity].
Defined.

(** ** Running the model *)

(** An account created over HTTP is listed over RPC, and one created over
    RPC is served over HTTP. *)
Example created_over_http_listed_over_rpc :
  (handler.ListAccounts (env:=sampleEnv) pb.mkListAccountsRequest
     (http.respond (handler.handleAccounts (env:=sampleEnv))
        (http.mkRequest http.MethodPost "/accounts" (http.Reader aliceDoc None))
        NewWorld).2).1
  = (Some (pb.mkListAccountsResponse
             (Some [pb.mkAccount "uuid-a" "Alice" "alice@example.com"
                                 "2023-11-14 22:13:20 +0000 UTC"])),
     None).
Proof. vm_compute. reflexivity. Qed.

Example created_over_rpc_served_over_http :
  http.status
    (http.respond (handler.handleAccountByID (env:=sampleEnv))
       (http.mkRequest http.MethodGet "/accounts/uuid-a" http.NoBody)
       (handler.CreateAccount (env:=sampleEnv)
          (pb.mkCreateAccountRequest "Alice" "alice@example.com") NewWorld).2).1
  = http.StatusOK.
Proof. vm_compute. reflexivity. Qed.

(** Other methods on the two routes are answered 405. *)
Example other_methods_not_allowed :
  http.status
    (http.respond (handler.handleAccounts (env:=sampleEnv))
       (http.mkRequest "DELETE" "/accounts" http.NoBody) NewWorld).1
  = http.StatusMethodNotAllowed
  /\ http.status
       (http.respond (handler.handleAccountByID (env:=sampleEnv))
          (http.mkRequest http.MethodPost "/accounts/uuid-a" http.NoBody) NewWorld).1
     = http.StatusMethodNotAllowed.
Proof. split; vm_compute; reflexivity. Qed.

(** Three accounts, listed twice: the same records in two orders. *)
Example listing_order_varies :
  let w := (service.Create (env:=sampleEnv) (service.mkInput "c" "c@x")
             (service.Create (env:=sampleEnv) (service.mkInput "b" "b@x")
               (service.Create (env:=sampleEnv) (service.mkInput "a" "a@x")
                  NewWorld).2).2).2 in
  let ids res := match res with
                 | Ok (Some l) => map model.ID l
                 | _ => []
                 end in
  ids (store.List (env:=sampleEnv) w).1 = ["uuid-c"; "uuid-a"; "uuid-b"]
  /\ ids (store.List (env:=sampleEnv) (store.List (env:=sampleEnv) w).2).1
     = ["uuid-a"; "uuid-c"; "uuid-b"].
Proof. split; vm_compute; reflexivity. Qed.

(** * Further properties of the code *)

(** ** The store and the service *)

(** X1.  [List] never fails and returns exactly the stored accounts: as many
    records as the map has entries, and a record is listed if and only if it
    is stored under some id. *)
Theorem store_List_lists_the_map {env : Env} (w : World) :
  exists l : list model.Account,
    (store.List w).1 = Ok (Some l)
    /\ length l = size (accounts w)
    /\ forall acc : model.Account,
        acc ∈ l <-> exists id : string, accounts w !! id = Some acc.
Proof.
  destruct (List_spec w) as (l & El & Pl). exists l. rewrite El.
  split_and!; [reflexivity | |].
  - by rewrite Pl, length_fmap, length_map_to_list.
  - intros acc. rewrite Pl, list_elem_of_fmap. split.
    + intros ([id acc'] & -> & Hin). exists id. by apply elem_of_map_to_list.
    + intros [id Hid]. exists (id, acc). split; [reflexivity|].
      by apply elem_of_map_to_list.
Qed.

(** X2.  Insert and lookup: after [Create acc], [GetByID] of the account's
    id returns [acc], and [GetByID] of any other id returns what it returned
    before. *)
Theorem store_Create_then_GetByID (acc : model.Account) (id : string) (w : World) :
  (store.GetByID id (store.Create acc w).2).1
  = if decide (id = model.ID acc) then Ok acc else (store.GetByID id w).1.
Proof.
  unfold store.GetByID, store.Create. cbn [snd accounts].
  destruct (decide (id = model.ID acc)) as [-> | Hne].
  - by rewrite lookup_insert_eq.
  - rewrite lookup_insert_ne by (intros Heq; by apply Hne).
    by destruct (accounts w !! id).
Qed.

(** X3.  Two records with the same ID: the second [Create] replaces the
    first, as if the first had never been stored; the number of entries does
    not grow with the second call. *)
Theorem store_Create_overwrites (a b : model.Account) (w : World) :
  model.ID a = model.ID b ->
  accounts (store.Create b (store.Create a w).2).2 = accounts (store.Create b w).2
  /\ size (accounts (store.Create b (store.Create a w).2).2)
     = size (accounts (store.Create a w).2)
  /\ (store.GetByID (model.ID a) (store.Create b (store.Create a w).2).2).1 = Ok b.
Proof.
  intros Hid. unfold store.GetByID, store.Create. cbn [snd accounts].
  rewrite Hid. split_and!.
  - apply insert_insert_eq.
  - apply map_size_insert_Some. rewrite lookup_insert_eq. by eexists.
  - by rewrite lookup_insert_eq.
Qed.

Lemma store_Create_overwrites_witness :
  (store.GetByID "k"
     (store.Create (model.mkAccount "k" "new" "new@x" (gotime.mkTime 2))
        (store.Create (model.mkAccount "k" "old" "old@x" (gotime.mkTime 1))
           NewWorld).2).2).1
  = Ok (model.mkAccount "k" "new" "new@x" (gotime.mkTime 2)).
Proof.
  apply (store_Create_overwrites
           (model.mkAccount "k" "old" "old@x" (gotime.mkTime 1))
           (model.mkAccount "k" "new" "new@x" (gotime.mkTime 2)) NewWorld).
  reflexivity.
Defined.

Section creations.
Context {env : Env}.

Lemma service_Create_world (input : service.CreateAccountInput) (w : World) :
  service.Create input w
  = (Ok (model.mkAccount (uuidNew (uuidDraws w)) (service.Name input)
                         (service.Email input) (timeNow (clockReads w))),
     mkWorld (<[uuidNew (uuidDraws w) :=
                model.mkAccount (uuidNew (uuidDraws w)) (service.Name input)
                                (service.Email input) (timeNow (clockReads w))]>
                (accounts w))
             (S (clockReads w)) (S (uuidDraws w)) (mapRanges w) (logged w)).
Proof. reflexivity. Qed.

Lemma drawnIDs_step (input : service.CreateAccountInput) (w : World) (n : nat) :
  drawnIDs w (S n) = uuidNew (uuidDraws w) :: drawnIDs (service.Create input w).2 n.
Proof. reflexivity. Qed.

Lemma createAll_clockReads (inputs : list service.CreateAccountInput) (w : World) :
  clockReads (createAll inputs w) = (clockReads w + length inputs)%nat.
Proof.
  revert w. induction inputs as [|input inputs IH]; intros w; cbn [createAll length].
  - lia.
  - rewrite IH, service_Create_world. cbn [snd clockReads]. lia.
Qed.
End creations.

(** X4.  Uniqueness: when the identifiers drawn by [n] creations in a row
    are pairwise distinct and not yet in the store, the store grows by
    exactly [n] entries and a listing then returns that many records. *)
Theorem creations_with_distinct_ids {env : Env}
    (inputs : list service.CreateAccountInput) (w : World) :
  NoDup (drawnIDs w (length inputs)) ->
  Forall (fun id => accounts w !! id = None) (drawnIDs w (length inputs)) ->
  size (accounts (createAll inputs w)) = (size (accounts w) + length inputs)%nat
  /\ exists l : list model.Account,
      (service.List (createAll inputs w)).1 = Ok (Some l)
      /\ length l = (size (accounts w) + length inputs)%nat.
Proof.
  intros Hnodup Hfresh.
  assert (Hsize : size (accounts (createAll inputs w))
                  = (size (accounts w) + length inputs)%nat).
  { revert w Hnodup Hfresh.
    induction inputs as [|input inputs IH]; intros w Hnodup Hfresh;
      cbn [createAll length].
    - lia.
    - cbn [length] in Hnodup, Hfresh.
      rewrite (drawnIDs_step input) in Hnodup, Hfresh.
      apply NoDup_cons in Hnodup as [Hnotin Hnodup].
      apply Forall_cons in Hfresh as [Hnew Hfresh].
      rewrite IH.
      + rewrite service_Create_world. cbn [snd accounts].
        rewrite map_size_insert_None by exact Hnew. lia.
      + exact Hnodup.
      + apply Forall_forall. intros id Hin.
        rewrite service_Create_world. cbn [snd accounts].
        rewrite lookup_insert_ne by (intros Heq; subst id; by apply Hnotin).
        by apply (proj1 (Forall_forall _ _) Hfresh). }
  split; [exact Hsize|].
  destruct (List_spec (createAll inputs w)) as (l & El & Pl).
  exists l. unfold service.List. rewrite El. split; [reflexivity|].
  by rewrite Pl, length_fmap, length_map_to_list.
Qed.

Lemma creations_with_distinct_ids_witness :
  size (accounts (createAll (env:=sampleEnv)
                    [service.mkInput "a" "a@x"; service.mkInput "b" "b@x";
                     service.mkInput "c" "c@x"] NewWorld))
  = (size (accounts NewWorld) + 3)%nat.
Proof.
  apply (creations_with_distinct_ids (env:=sampleEnv)
           [service.mkInput "a" "a@x"; service.mkInput "b" "b@x";
            service.mkInput "c" "c@x"] NewWorld).
  - apply (bool_decide_unpack _). vm_compute. exact I.
  - apply (bool_decide_unpack _). vm_compute. exact I.
Defined.

(** X5.  The service does not validate: [Create] succeeds for every input,
    an empty name or email included.  It draws exactly one identifier and
    reads the clock exactly once, files the new record under the drawn
    identifier, and leaves every other entry, the map-range counter and the
    log as they were. *)
Theorem service_Create_effects {env : Env}
    (input : service.CreateAccountInput) (w : World) :
  exists acc : model.Account,
    (service.Create input w).1 = Ok acc
    /\ model.ID acc = uuidNew (uuidDraws w)
    /\ model.Name acc = service.Name input
    /\ model.Email acc = service.Email input
    /\ model.CreatedAt acc = timeNow (clockReads w)
    /\ accounts (service.Create input w).2 !! model.ID acc = Some acc
    /\ delete (model.ID acc) (accounts (service.Create input w).2)
       = delete (model.ID acc) (accounts w)
    /\ uuidDraws (service.Create input w).2 = S (uuidDraws w)
    /\ clockReads (service.Create input w).2 = S (clockReads w)
    /\ mapRanges (service.Create input w).2 = mapRanges w
    /\ logged (service.Create input w).2 = logged w.
Proof.
  rewrite service_Create_world. eexists. split; [reflexivity|].
  cbn [fst snd model.ID model.Name model.Email model.CreatedAt accounts uuidDraws
       clockReads mapRanges logged].
  split_and!; try reflexivity.
  - apply lookup_insert_eq.
  - apply delete_insert_eq.
Qed.

(** X6.  With a clock that never runs backwards, creation times follow the
    order of creation: an account created after any number of further
    creations is not earlier than one created before them. *)
Theorem later_creation_not_earlier {env : Env}
    (first last : service.CreateAccountInput)
    (between : list service.CreateAccountInput) (w : World) :
  clockMonotone ->
  exists a1 a2 : model.Account,
    (service.Create first w).1 = Ok a1
    /\ (service.Create last (createAll between (service.Create first w).2)).1 = Ok a2
    /\ gotime.Before (model.CreatedAt a2) (model.CreatedAt a1) = false.
Proof.
  intros Hclock. rewrite !service_Create_world. eexists _, _.
  split; [reflexivity|]. split; [reflexivity|].
  cbn [fst snd model.CreatedAt]. unfold gotime.Before. apply Z.ltb_ge, Hclock.
  rewrite createAll_clockReads. cbn [clockReads]. lia.
Qed.

Lemma later_creation_not_earlier_witness :
  exists a1 a2 : model.Account,
    (service.Create (env:=sampleEnv) (service.mkInput "a" "a@x") NewWorld).1 = Ok a1
    /\ (service.Create (env:=sampleEnv) (service.mkInput "c" "c@x")
          (createAll (env:=sampleEnv) [service.mkInput "b" "b@x"]
             (service.Create (env:=sampleEnv) (service.mkInput "a" "a@x") NewWorld).2)).1
       = Ok a2
    /\ gotime.Before (model.CreatedAt a2) (model.CreatedAt a1) = false.
Proof.
  apply (later_creation_not_earlier (env:=sampleEnv) (service.mkInput "a" "a@x")
           (service.mkInput "c" "c@x") [service.mkInput "b" "b@x"] NewWorld).
  intros i j Hij. simpl. lia.
Defined.

(** ** The HTTP adapter *)

Section http_facts.
Context {env : Env}.

Lemma writeJSON_status (st : Z) (m : option string) :
  http.status (foldl http.call http.newResponse (handler.writeJSON st m)) = st.
Proof. by destruct m. Qed.

Lemma respond_createAccount_status (r : http.Request) (w : World) :
  http.status (http.respond handler.createAccount r w).1 = http.StatusCreated
  \/ http.status (http.respond handler.createAccount r w).1 = http.StatusBadRequest.
Proof.
  unfold http.respond, http.ServeHTTP, handler.createAccount, bind.
  destruct (handler.Decode (http.body r)) as [req [err|]]; [by right|].
  destruct (bool_decide (handler.Name req = "") || bool_decide (handler.Email req = ""));
    [by right|].
  rewrite service_Create_world. cbn [ret fst]. left. apply writeJSON_status.
Qed.

Lemma respond_getAccount_status (id : string) (b : http.Request) (w : World) :
  http.status (http.respond (fun _ => handler.getAccount id) b w).1 = http.StatusOK
  \/ http.status (http.respond (fun _ => handler.getAccount id) b w).1
     = http.StatusNotFound.
Proof.
  unfold http.respond, http.ServeHTTP, handler.getAccount, bind,
    service.GetByID, store.GetByID.
  destruct (accounts w !! id); cbn [ret fst]; [left; apply writeJSON_status | by right].
Qed.

Lemma respond_listAccounts (r : http.Request) (w : World) :
  exists l : list model.Account,
    l ≡ₚ (map_to_list (accounts w)).*2
    /\ http.respond (fun _ => handler.listAccounts) r w
       = (foldl http.call http.newResponse
            (handler.writeJSON http.StatusOK (handler.marshalAccounts (Some l))),
          mkWorld (accounts w) (clockReads w) (uuidDraws w) (S (mapRanges w)) (logged w)).
Proof.
  destruct (List_spec w) as (l & El & Pl). exists l. split; [exact Pl|].
  unfold http.respond, http.ServeHTTP, handler.listAccounts, bind, service.List.
  by rewrite El.
Qed.
Lemma respond_handleAccounts (r : http.Request) (w : World) :
  http.respond handler.handleAccounts r w
  = if bool_decide (http.Method r = http.MethodPost) then
      http.respond handler.createAccount r w
    else if bool_decide (http.Method r = http.MethodGet) then
      http.respond (fun _ => handler.listAccounts) r w
    else
      (foldl http.call http.newResponse
         (http.Error "method not allowed" http.StatusMethodNotAllowed), w).
Proof.
  unfold http.respond, http.ServeHTTP, handler.handleAccounts, bind.
  by repeat case_bool_decide.
Qed.

Lemma respond_handleAccountByID (r : http.Request) (w : World) :
  http.respond handler.handleAccountByID r w
  = if bool_decide (http.Method r ≠ http.MethodGet) then
      (foldl http.call http.newResponse
         (http.Error "method not allowed" http.StatusMethodNotAllowed), w)
    else if bool_decide (TrimPrefix (http.Path r) "/accounts/" = "") then
      (foldl http.call http.newResponse
         (http.Error "missing account id" http.StatusBadRequest), w)
    else
      http.respond (fun _ => handler.getAccount (TrimPrefix (http.Path r) "/accounts/"))
                   r w.
Proof.
  unfold http.respond, http.ServeHTTP, handler.handleAccountByID, bind.
  by repeat case_bool_decide.
Qed.
End http_facts.

(** X7.  Any method other than GET on /accounts/{id}, and any method other
    than GET and POST on /accounts, is answered 405 with the text
    [method not allowed]; the world is left as it was. *)
Theorem other_methods_answered_405 {env : Env} (r : http.Request) (w : World) :
  http.Method r ≠ http.MethodGet ->
  (exists resp : http.response,
      http.respond handler.handleAccountByID r w = (resp, w)
      /\ http.status resp = http.StatusMethodNotAllowed
      /\ http.written resp = "method not allowed" +:+ newline)
  /\ (http.Method r ≠ http.MethodPost ->
      exists resp : http.response,
        http.respond handler.handleAccounts r w = (resp, w)
        /\ http.status resp = http.StatusMethodNotAllowed
        /\ http.written resp = "method not allowed" +:+ newline).
Proof.
  intros Hget. split.
  - unfold http.respond, http.ServeHTTP, handler.handleAccountByID, bind.
    rewrite bool_decide_eq_true_2 by exact Hget.
    eexists. split_and!; reflexivity.
  - intros Hpost.
    unfold http.respond, http.ServeHTTP, handler.handleAccounts, bind.
    rewrite !bool_decide_eq_false_2 by assumption.
    eexists. split_and!; reflexivity.
Qed.

Lemma other_methods_answered_405_witness :
  exists resp : http.response,
    http.respond (handler.handleAccountByID (env:=sampleEnv))
      (http.mkRequest "DELETE" "/accounts/uuid-a" http.NoBody) NewWorld
    = (resp, NewWorld)
    /\ http.status resp = http.StatusMethodNotAllowed
    /\ http.written resp = "method not allowed" +:+ newline.
Proof.
  destruct (other_methods_answered_405 (env:=sampleEnv)
              (http.mkRequest "DELETE" "/accounts/uuid-a" http.NoBody) NewWorld)
    as [Hbyid _]; [discriminate | exact Hbyid].
Defined.

(** X8.  The HTTP handlers never answer 500: the store cannot fail, so the
    internal-error replies are never sent.  /accounts answers 200, 201, 400
    or 405, and /accounts/{id} answers 200, 400, 404 or 405, for every
    request and every state. *)
Theorem http_never_answers_500 {env : Env} (r : http.Request) (w : World) :
  http.status (http.respond handler.handleAccounts r w).1
    ∈ [http.StatusOK; http.StatusCreated; http.StatusBadRequest;
       http.StatusMethodNotAllowed]
  /\ http.status (http.respond handler.handleAccountByID r w).1
    ∈ [http.StatusOK; http.StatusBadRequest; http.StatusNotFound;
       http.StatusMethodNotAllowed].
Proof.
  split.
  - rewrite respond_handleAccounts.
    destruct (bool_decide (http.Method r = http.MethodPost)).
    + destruct (respond_createAccount_status r w) as [-> | ->]; set_solver.
    + destruct (bool_decide (http.Method r = http.MethodGet)).
      * destruct (respond_listAccounts r w) as (l & _ & ->). cbn [fst].
        rewrite writeJSON_status. set_solver.
      * cbn. set_solver.
  - rewrite respond_handleAccountByID.
    destruct (bool_decide (http.Method r ≠ http.MethodGet)); [cbn; set_solver|].
    destruct (bool_decide (TrimPrefix (http.Path r) "/accounts/" = ""));
      [cbn; set_solver|].
    destruct (respond_getAccount_status (TrimPrefix (http.Path r) "/accounts/") r w)
      as [-> | ->]; set_solver.
Qed.

(** X9.  A POST /accounts whose body decodes to a non-empty name and email
    creates the account: it is stored under the identifier drawn, with the
    clock reading as its creation time, and the reply is 201 with content
    type [application/json] and the account's JSON document followed by a
    newline (for a creation time in the years 0 to 9999). *)
Theorem createAccount_creates {env : Env}
    (path : string) (b : http.Body) (name email : string) (w : World) :
  handler.Decode b = (handler.mkCreateRequest name email, None) ->
  name ≠ "" -> email ≠ "" ->
  0 <= gotime.Year (timeNow (clockReads w)) < 10000 ->
  exists (resp : http.response) (w' : World),
    http.respond handler.handleAccounts (http.mkRequest http.MethodPost path b) w
    = (resp, w')
    /\ http.status resp = http.StatusCreated
    /\ http.sentHeader resp !! "Content-Type" = Some "application/json"
    /\ http.written resp
       = accountDoc (model.mkAccount (uuidNew (uuidDraws w)) name email
                                     (timeNow (clockReads w)))
                    (httpText (timeNow (clockReads w))) +:+ newline
    /\ accounts w'
       = <[uuidNew (uuidDraws w) :=
             model.mkAccount (uuidNew (uuidDraws w)) name email (timeNow (clockReads w))]>
           (accounts w).
Proof.
  intros Hdecode Hname Hemail Hyear.
  rewrite respond_handleAccounts. cbn [http.Method].
  rewrite bool_decide_eq_true_2 by reflexivity.
  unfold http.respond, http.ServeHTTP, handler.createAccount, bind.
  cbn [http.body]. rewrite Hdecode. cbn [handler.Name handler.Email].
  rewrite !bool_decide_eq_false_2 by assumption. cbn [orb].
  rewrite service_Create_world. cbn [ret fst snd service.Name service.Email].
  rewrite marshalAccount_doc by exact Hyear.
  eexists _, _. split_and!; reflexivity.
Qed.

Lemma createAccount_creates_witness :
  exists (resp : http.response) (w' : World),
    http.respond (handler.handleAccounts (env:=sampleEnv))
      (http.mkRequest http.MethodPost "/accounts" (http.Reader aliceDoc None)) NewWorld
    = (resp, w')
    /\ http.status resp = http.StatusCreated
    /\ http.sentHeader resp !! "Content-Type" = Some "application/json"
    /\ http.written resp
       = accountDoc (env:=sampleEnv)
           (model.mkAccount "uuid-a" "Alice" "alice@example.com"
                            (gotime.mkTime 1700000000000000000))
           (httpText (gotime.mkTime 1700000000000000000)) +:+ newline
    /\ accounts w'
       = <["uuid-a" := model.mkAccount "uuid-a" "Alice" "alice@example.com"
                                       (gotime.mkTime 1700000000000000000)]>
           (accounts NewWorld).
Proof.
  apply (createAccount_creates (env:=sampleEnv) "/accounts" (http.Reader aliceDoc None)
           "Alice" "alice@example.com" NewWorld).
  - reflexivity.
  - discriminate.
  - discriminate.
  - vm_compute. split; [intros Hgt; discriminate Hgt | reflexivity].
Defined.

(** X10.  Create, then fetch: after a successful POST /accounts, a GET
    /accounts/{id} with the identifier of the new account answers 200 with
    exactly the bytes the POST answered. *)
Theorem post_then_get_same_document {env : Env}
    (r : http.Request) (name email : string) (b : http.Body) (w : World) :
  handler.Decode (http.body r) = (handler.mkCreateRequest name email, None) ->
  name ≠ "" -> email ≠ "" ->
  uuidNew (uuidDraws w) ≠ "" ->
  let posted := http.respond handler.createAccount r w in
  let fetched := http.respond handler.handleAccountByID
                   (http.mkRequest http.MethodGet
                      ("/accounts/" +:+ uuidNew (uuidDraws w)) b) posted.2 in
  http.status posted.1 = http.StatusCreated
  /\ http.status fetched.1 = http.StatusOK
  /\ http.written fetched.1 = http.written posted.1
  /\ accounts fetched.2 = accounts posted.2.
Proof.
  intros Hdecode Hname Hemail Hid posted fetched.
  assert (Hposted : posted
    = (foldl http.call http.newResponse
         (handler.writeJSON http.StatusCreated
            (handler.marshalAccount
               (model.mkAccount (uuidNew (uuidDraws w)) name email
                                (timeNow (clockReads w))))),
       (service.Create (service.mkInput name email) w).2)).
  { subst posted.
    unfold http.respond, http.ServeHTTP, handler.createAccount, bind.
    rewrite Hdecode. cbn [handler.Name handler.Email].
    rewrite !bool_decide_eq_false_2 by assumption. cbn [orb].
    by rewrite service_Create_world. }
  assert (Hfetched : fetched
    = (foldl http.call http.newResponse
         (handler.writeJSON http.StatusOK
            (handler.marshalAccount
               (model.mkAccount (uuidNew (uuidDraws w)) name email
                                (timeNow (clockReads w))))),
       posted.2)).
  { subst fetched. rewrite respond_handleAccountByID. cbn [http.Method http.Path].
    rewrite bool_decide_eq_false_2 by (intros Hne; by apply Hne).
    rewrite TrimPrefix_accounts.
    rewrite bool_decide_eq_false_2 by exact Hid.
    rewrite Hposted. cbn [snd]. rewrite service_Create_world. cbn [snd].
    unfold http.respond, http.ServeHTTP, handler.getAccount, bind,
      service.GetByID, store.GetByID.
    cbn [accounts]. by rewrite lookup_insert_eq. }
  rewrite Hfetched, Hposted. cbn [fst snd]. rewrite !writeJSON_status.
  split_and!; try reflexivity.
  by destruct (handler.marshalAccount _).
Qed.

Lemma post_then_get_same_document_witness :
  http.written
    (http.respond (handler.handleAccountByID (env:=sampleEnv))
       (http.mkRequest http.MethodGet ("/accounts/" +:+ "uuid-a") http.NoBody)
       (http.respond (handler.createAccount (env:=sampleEnv))
          (http.mkRequest http.MethodPost "/accounts" (http.Reader aliceDoc None))
          NewWorld).2).1
  = http.written
      (http.respond (handler.createAccount (env:=sampleEnv))
         (http.mkRequest http.MethodPost "/accounts" (http.Reader aliceDoc None))
         NewWorld).1.
Proof.
  apply (post_then_get_same_document (env:=sampleEnv)
           (http.mkRequest http.MethodPost "/accounts" (http.Reader aliceDoc None))
           "Alice" "alice@example.com" http.NoBody NewWorld).
  - reflexivity.
  - discriminate.
  - discriminate.
  - discriminate.
Defined.

Section decode_errors.
Context {env : Env}.

(** Once raised, the decoder's error stays. *)
Lemma decodeMember_error_stays (members : list (string * json))
    (st : handler.createRequest * option error) :
  st.2 ≠ None -> (foldl handler.decodeMember st members).2 ≠ None.
Proof.
  revert st. induction members as [|[k v] members IH]; intros st Hst; [exact Hst|].
  cbn [foldl]. apply IH. unfold handler.decodeMember. cbn [fst snd].
  destruct (handler.fieldOf k); [|exact Hst].
  destruct v; try exact Hst; cbn [snd]; by destruct st.2.
Qed.

Lemma decodeMember_mistyped (members : list (string * json))
    (st : handler.createRequest * option error) :
  Exists (fun kv => handler.fieldOf kv.1 ≠ None /\ stringOrNull kv.2 = false) members ->
  (foldl handler.decodeMember st members).2 ≠ None.
Proof.
  intros Hex. revert st.
  induction Hex as [[k v] members [Hkey Hval] | [k v] members _ IH]; intros st.
  - cbn [foldl]. apply decodeMember_error_stays.
    unfold handler.decodeMember. cbn [fst snd] in *.
    destruct (handler.fieldOf k); [|done].
    destruct v; try discriminate Hval; cbn [snd]; by destruct st.2.
  - cbn [foldl]. apply IH.
Qed.
End decode_errors.


(** X12.  A body object in which some member under a name or email key
    (up to letter case) holds a value that is neither a string nor null is
    answered 400 with [invalid request body], whatever the other members
    are; nothing is stored. *)
Theorem mistyped_member_rejected {env : Env}
    (r : http.Request) (members : list (string * json)) (w : World) :
  jsonRead (http.pending (http.body r)) = Some (JObject members) ->
  Exists (fun kv => handler.fieldOf kv.1 ≠ None /\ stringOrNull kv.2 = false) members ->
  http.respond handler.createAccount r w
  = (foldl http.call http.newResponse
       (http.Error "invalid request body" http.StatusBadRequest), w).
Proof.
  intros Hread Hex.
  assert (Herr : (handler.Decode (http.body r)).2 ≠ None).
  { unfold handler.Decode. rewrite Hread. by apply decodeMember_mistyped. }
  unfold http.respond, http.ServeHTTP, handler.createAccount, bind.
  destruct (handler.Decode (http.body r)) as [req [err|]]; [reflexivity|].
  by destruct Herr.
Qed.

Lemma mistyped_member_rejected_witness :
  http.respond (handler.createAccount (env:=sampleEnv))
    (http.mkRequest http.MethodPost "/accounts" (http.Reader emailNumberDoc None))
    NewWorld
  = (foldl http.call http.newResponse
       (http.Error "invalid request body" http.StatusBadRequest), NewWorld).
Proof.
  apply (mistyped_member_rejected (env:=sampleEnv)
           (http.mkRequest http.MethodPost "/accounts" (http.Reader emailNumberDoc None))
           [("email", JNumber "5")] NewWorld).
  - reflexivity.
  - left. split; [discriminate | reflexivity].
Defined.

(** X13.  [writeJSON] drops the encoder's error: for a stored account whose
    creation time lies outside the years 0 to 9999 (which time.Time cannot
    marshal), GET /accounts/{id} still answers 200 with content type
    [application/json], and an empty body. *)
Theorem unmarshalable_account_served_empty {env : Env}
    (w : World) (id : string) (acc : model.Account) (b : http.Body) :
  accounts w !! id = Some acc ->
  id ≠ "" ->
  gotime.Year (model.CreatedAt acc) < 0 \/ 10000 <= gotime.Year (model.CreatedAt acc) ->
  exists resp : http.response,
    http.respond handler.handleAccountByID
      (http.mkRequest http.MethodGet ("/accounts/" +:+ id) b) w = (resp, w)
    /\ http.status resp = http.StatusOK
    /\ http.sentHeader resp !! "Content-Type" = Some "application/json"
    /\ http.written resp = "".
Proof.
  intros Hstored Hid Hyear.
  assert (Hmarshal : handler.marshalAccount acc = None).
  { unfold handler.marshalAccount, gotime.MarshalJSON.
    destruct Hyear as [Hlo | Hhi].
    - by rewrite (proj2 (Z.ltb_lt _ _) Hlo).
    - rewrite (proj2 (Z.leb_le _ _) Hhi). by rewrite orb_true_r. }
  rewrite respond_handleAccountByID. cbn [http.Method http.Path].
  rewrite bool_decide_eq_false_2 by (intros Hne; by apply Hne).
  rewrite TrimPrefix_accounts.
  rewrite bool_decide_eq_false_2 by exact Hid.
  unfold http.respond, http.ServeHTTP, handler.getAccount, bind,
    service.GetByID, store.GetByID.
  rewrite Hstored. cbn [ret fst]. rewrite Hmarshal.
  eexists. split_and!; reflexivity.
Qed.

Lemma unmarshalable_account_served_empty_witness :
  exists resp : http.response,
    http.respond (handler.handleAccountByID (env:=sampleEnv))
      (http.mkRequest http.MethodGet ("/accounts/" +:+ "far") http.NoBody)
      (store.Create (model.mkAccount "far" "n" "e"
                       (gotime.mkTime 253402300800000000000)) NewWorld).2
    = (resp,
       (store.Create (model.mkAccount "far" "n" "e"
                        (gotime.mkTime 253402300800000000000)) NewWorld).2)
    /\ http.status resp = http.StatusOK
    /\ http.sentHeader resp !! "Content-Type" = Some "application/json"
    /\ http.written resp = "".
Proof.
  apply (unmarshalable_account_served_empty (env:=sampleEnv)
           (store.Create (model.mkAccount "far" "n" "e"
                            (gotime.mkTime 253402300800000000000)) NewWorld).2
           "far"
           (model.mkAccount "far" "n" "e" (gotime.mkTime 253402300800000000000))
           http.NoBody).
  - reflexivity.
  - discriminate.
  - right. vm_compute. intros Hgt. discriminate Hgt.
Defined.

(** ** The RPC adapter *)

(** X14.  The RPC handlers never answer with status Internal: the store
    cannot fail.  [CreateAccount] either succeeds or answers
    InvalidArgument; [GetAccount] either succeeds or answers InvalidArgument
    (empty id) or NotFound; [ListAccounts] always succeeds.  A response is
    present exactly when the error is nil. *)
Theorem rpc_never_answers_Internal {env : Env}
    (creq : pb.CreateAccountRequest) (greq : pb.GetAccountRequest) (w : World) :
  match (handler.CreateAccount creq w).1 with
  | (Some _, None) => pb.GetName creq ≠ "" /\ pb.GetEmail creq ≠ ""
  | (None, Some e) =>
      e = StatusError codes.InvalidArgument "name and email are required"
      /\ (pb.GetName creq = "" \/ pb.GetEmail creq = "")
  | _ => False
  end
  /\ match (handler.GetAccount greq w).1 with
     | (Some _, None) => is_Some (accounts w !! pb.GetId greq)
     | (None, Some e) =>
         (e = StatusError codes.InvalidArgument "id is required" /\ pb.GetId greq = "")
         \/ (e = StatusError codes.NotFound "account not found"
             /\ accounts w !! pb.GetId greq = None)
     | _ => False
     end
  /\ match (handler.ListAccounts pb.mkListAccountsRequest w).1 with
     | (Some _, None) => True
     | _ => False
     end.
Proof.
  split_and!.
  - unfold handler.CreateAccount.
    destruct (decide (pb.GetName creq = "")) as [Hn|Hn].
    { rewrite (bool_decide_eq_true_2 _ Hn). cbn. split; [reflexivity | by left]. }
    destruct (decide (pb.GetEmail creq = "")) as [He|He].
    { rewrite (bool_decide_eq_true_2 _ He), orb_true_r. cbn.
      split; [reflexivity | by right]. }
    rewrite !bool_decide_eq_false_2 by assumption. cbn [orb].
    unfold bind. rewrite service_Create_world. cbn. split; assumption.
  - unfold handler.GetAccount.
    destruct (decide (pb.GetId greq = "")) as [Hi|Hi].
    { rewrite (bool_decide_eq_true_2 _ Hi). cbn. left. split; [reflexivity | exact Hi]. }
    rewrite bool_decide_eq_false_2 by exact Hi.
    unfold bind, service.GetByID, store.GetByID.
    destruct (accounts w !! pb.GetId greq) as [acc|] eqn:E; cbn;
      [by eexists | right; split; reflexivity].
  - unfold handler.ListAccounts, bind, service.List.
    destruct (List_spec w) as (l & -> & _). exact I.
Qed.

(** X15.  Create, then fetch, over RPC: for a non-empty name and email (and
    a non-empty identifier drawn), [GetAccount] with the id of the account
    that [CreateAccount] returned answers with the very same message, whose
    name and email are the ones sent. *)
Theorem rpc_create_then_get {env : Env} (name email : string) (w : World) :
  name ≠ "" -> email ≠ "" -> uuidNew (uuidDraws w) ≠ "" ->
  exists a : pb.Account,
    (handler.CreateAccount (pb.mkCreateAccountRequest name email) w).1
    = (Some (pb.mkCreateAccountResponse (Some a)), None)
    /\ (handler.GetAccount (pb.mkGetAccountRequest (pb.Id a))
          (handler.CreateAccount (pb.mkCreateAccountRequest name email) w).2).1
       = (Some (pb.mkGetAccountResponse (Some a)), None)
    /\ pb.Id a = uuidNew (uuidDraws w)
    /\ pb.Name a = name
    /\ pb.Email a = email.
Proof.
  intros Hname Hemail Hid.
  assert (Hcreate : handler.CreateAccount (pb.mkCreateAccountRequest name email) w
    = ((Some (pb.mkCreateAccountResponse
                (Some (pb.mkAccount (uuidNew (uuidDraws w)) name email
                                    (gotime.String (timeNow (clockReads w)))))), None),
       (service.Create (service.mkInput name email) w).2)).
  { unfold handler.CreateAccount. cbn [pb.GetName pb.GetEmail].
    rewrite !bool_decide_eq_false_2 by assumption. cbn [orb].
    unfold bind. by rewrite service_Create_world. }
  rewrite Hcreate. eexists. split; [reflexivity|]. cbn [fst snd pb.Id pb.Name pb.Email].
  split_and!; try reflexivity.
  unfold handler.GetAccount. cbn [pb.GetId].
  rewrite bool_decide_eq_false_2 by exact Hid.
  rewrite service_Create_world. cbn [snd].
  unfold bind, service.GetByID, store.GetByID. cbn [accounts].
  by rewrite lookup_insert_eq.
Qed.

Lemma rpc_create_then_get_witness :
  exists a : pb.Account,
    (handler.CreateAccount (env:=sampleEnv)
       (pb.mkCreateAccountRequest "Alice" "alice@example.com") NewWorld).1
    = (Some (pb.mkCreateAccountResponse (Some a)), None)
    /\ (handler.GetAccount (pb.mkGetAccountRequest (pb.Id a))
          (handler.CreateAccount (env:=sampleEnv)
             (pb.mkCreateAccountRequest "Alice" "alice@example.com") NewWorld).2).1
       = (Some (pb.mkGetAccountResponse (Some a)), None)
    /\ pb.Id a = uuidNew (Env:=sampleEnv) (uuidDraws NewWorld)
    /\ pb.Name a = "Alice"
    /\ pb.Email a = "alice@example.com".
Proof.
  apply (rpc_create_then_get (env:=sampleEnv) "Alice" "alice@example.com" NewWorld);
    discriminate.
Defined.

(** X16.  [ListAccounts] never fails and its list is never nil: it holds one
    message per stored account, and a message is listed if and only if it is
    the message of an account in the store.  The store is left as it was. *)
Theorem ListAccounts_lists_the_store {env : Env} (w : World) :
  exists l : list pb.Account,
    (handler.ListAccounts pb.mkListAccountsRequest w).1
    = (Some (pb.mkListAccountsResponse (Some l)), None)
    /\ length l = size (accounts w)
    /\ (forall a : pb.Account,
          a ∈ l <-> exists (id : string) (acc : model.Account),
                      accounts w !! id = Some acc
                      /\ a = pbAccount acc (gotime.String (model.CreatedAt acc)))
    /\ accounts (handler.ListAccounts pb.mkListAccountsRequest w).2 = accounts w.
Proof.
  destruct (ListAccounts_spec w) as (l & Pl & El).
  eexists. split; [exact El|]. split_and!.
  - by rewrite length_map, Pl, length_fmap, length_map_to_list.
  - intros a. change (map ?f l) with (f <$> l). rewrite list_elem_of_fmap. split.
    + intros (acc & -> & Hin). rewrite Pl in Hin.
      apply list_elem_of_fmap in Hin as ([id acc'] & -> & Hin).
      exists id, acc'. split; [by apply elem_of_map_to_list | reflexivity].
    + intros (id & acc & Hid & ->). exists acc. split; [reflexivity|].
      rewrite Pl. apply list_elem_of_fmap. exists (id, acc).
      split; [reflexivity | by apply elem_of_map_to_list].
  - unfold handler.ListAccounts, bind, service.List.
    by destruct (List_spec w) as (l' & -> & _).
Qed.

(** X17.  Across transports: an account created by POST /accounts is
    answered by the RPC [GetAccount] with the same id, name and email, and
    an account created by the RPC [CreateAccount] is served by GET
    /accounts/{id} with 200. *)
Theorem created_by_one_transport_read_by_the_other {env : Env}
    (name email : string) (r : http.Request) (b : http.Body) (w : World) :
  name ≠ "" -> email ≠ "" -> uuidNew (uuidDraws w) ≠ "" ->
  handler.Decode (http.body r) = (handler.mkCreateRequest name email, None) ->
  (exists created : string,
      (handler.GetAccount (pb.mkGetAccountRequest (uuidNew (uuidDraws w)))
         (http.respond handler.createAccount r w).2).1
      = (Some (pb.mkGetAccountResponse
                 (Some (pb.mkAccount (uuidNew (uuidDraws w)) name email created))),
         None))
  /\ http.status
       (http.respond handler.handleAccountByID
          (http.mkRequest http.MethodGet ("/accounts/" +:+ uuidNew (uuidDraws w)) b)
          (handler.CreateAccount (pb.mkCreateAccountRequest name email) w).2).1
     = http.StatusOK.
Proof.
  intros Hname Hemail Hid Hdecode. split.
  - assert (Hw : (http.respond handler.createAccount r w).2
                 = (service.Create (service.mkInput name email) w).2).
    { unfold http.respond, http.ServeHTTP, handler.createAccount, bind.
      rewrite Hdecode. cbn [handler.Name handler.Email].
      rewrite !bool_decide_eq_false_2 by assumption. cbn [orb].
      by rewrite service_Create_world. }
    rewrite Hw, service_Create_world. cbn [snd].
    unfold handler.GetAccount. cbn [pb.GetId].
    rewrite bool_decide_eq_false_2 by exact Hid.
    unfold bind, service.GetByID, store.GetByID. cbn [accounts].
    rewrite lookup_insert_eq. eexists. reflexivity.
  - assert (Hw : (handler.CreateAccount (pb.mkCreateAccountRequest name email) w).2
                 = (service.Create (service.mkInput name email) w).2).
    { unfold handler.CreateAccount. cbn [pb.GetName pb.GetEmail].
      rewrite !bool_decide_eq_false_2 by assumption. cbn [orb].
      unfold bind. by rewrite service_Create_world. }
    rewrite Hw, service_Create_world. cbn [snd].
    rewrite respond_handleAccountByID. cbn [http.Method http.Path].
    rewrite bool_decide_eq_false_2 by (intros Hne; by apply Hne).
    rewrite TrimPrefix_accounts.
    rewrite bool_decide_eq_false_2 by exact Hid.
    unfold http.respond, http.ServeHTTP, handler.getAccount, bind,
      service.GetByID, store.GetByID. cbn [accounts].
    rewrite lookup_insert_eq. cbn [ret fst]. apply writeJSON_status.
Qed.

Lemma created_by_one_transport_read_by_the_other_witness :
  http.status
    (http.respond (handler.handleAccountByID (env:=sampleEnv))
       (http.mkRequest http.MethodGet
          ("/accounts/" +:+ uuidNew (Env:=sampleEnv) (uuidDraws NewWorld)) http.NoBody)
       (handler.CreateAccount (env:=sampleEnv)
          (pb.mkCreateAccountRequest "Alice" "alice@example.com") NewWorld).2).1
  = http.StatusOK.
Proof.
  apply (created_by_one_transport_read_by_the_other (env:=sampleEnv)
           "Alice" "alice@example.com"
           (http.mkRequest http.MethodPost "/accounts" (http.Reader aliceDoc None))
           http.NoBody NewWorld).
  - discriminate.
  - discriminate.
  - discriminate.
  - reflexivity.
Defined.

(** ** The HTTP logging middleware *)

Section logging_line.
Context {env : Env}.

(** What the recorder has recorded after a run of calls. *)
Lemma recorder_records {W} `{http.ResponseWriter W}
    (calls : list http.Call) (rec : middleware.responseRecorder W) :
  middleware.status (foldl http.call rec calls) = lastStatus (middleware.status rec) calls
  /\ middleware.body (foldl http.call rec calls)
     = middleware.body rec +:+ writtenBytes calls.
Proof.
  revert rec. induction calls as [|c calls IH]; intros rec; cbn [foldl].
  - split; [reflexivity|]. by rewrite string_app_empty_r.
  - destruct (IH (http.call rec c)) as [-> ->].
    destruct c; cbn; split; try reflexivity. by rewrite string_app_assoc.
Qed.

(** The whole run of [Logging next] in terms of the run of [next]. *)
Lemma Logging_run (next : http.Handler) (r : http.Request) (w : World) :
  middleware.Logging next r w
  = ((next (forwardedRequest r) (time_Now w).2).1,
     mkWorld (accounts (next (forwardedRequest r) (time_Now w).2).2)
             (S (clockReads (next (forwardedRequest r) (time_Now w).2).2))
             (uuidDraws (next (forwardedRequest r) (time_Now w).2).2)
             (mapRanges (next (forwardedRequest r) (time_Now w).2).2)
             (logged (next (forwardedRequest r) (time_Now w).2).2
              ++ [LogHTTP (http.Method r) (http.Path r) (loggedRequestBody r)
                    (lastStatus http.StatusOK (next (forwardedRequest r) (time_Now w).2).1)
                    (middleware.compactJSON
                       (writtenBytes (next (forwardedRequest r) (time_Now w).2).1))
                    (gotime.unixNano
                       (timeNow (clockReads (next (forwardedRequest r) (time_Now w).2).2))
                     - gotime.unixNano (timeNow (clockReads w)))])).
Proof.
  assert (Hrec : forall calls : list http.Call,
    let rec := foldl http.call
                 (middleware.mkRecorder ([] : list http.Call) http.StatusOK "") calls in
    middleware.ResponseWriter rec = calls
    /\ middleware.status rec = lastStatus http.StatusOK calls
    /\ middleware.body rec = writtenBytes calls).
  { intros calls rec. subst rec. rewrite recorder_forwards.
    destruct (recorder_records calls
                (middleware.mkRecorder ([] : list http.Call) http.StatusOK ""))
      as [-> ->].
    cbn [middleware.ResponseWriter middleware.status middleware.body].
    by rewrite trace_writer_appends. }
  unfold middleware.Logging, forwardedRequest, loggedRequestBody.
  destruct r as [meth path [|data [e|]]];
    unfold bind, http.ServeHTTP, bind, time_Since, bind, log_Print, ret,
      http.NewReader, time_Now;
    cbn [http.body http.Method http.Path http.ReadAll fst snd];
    match goal with
    | |- context [next ?r' ?w'] => destruct (next r' w') as [calls w2]
    end;
    cbn [fst snd clockReads accounts uuidDraws mapRanges logged];
    destruct (Hrec calls) as (-> & -> & ->); reflexivity.
Qed.

Lemma reply_status_and_bytes (calls : list http.Call) :
  isReply calls ->
  lastStatus http.StatusOK calls
  = http.status (foldl http.call http.newResponse calls)
  /\ writtenBytes calls = http.written (foldl http.call http.newResponse calls).
Proof.
  intros [(msg & code & ->) | (st & [doc|] & ->)]; split; try reflexivity.
  - cbn. by rewrite string_app_empty_r.
  - cbn. by rewrite string_app_empty_r.
Qed.

Lemma handleAccounts_isReply (r : http.Request) (w : World) :
  isReply (handler.handleAccounts r w).1.
Proof.
  unfold handler.handleAccounts.
  destruct (bool_decide (http.Method r = http.MethodPost)).
  - unfold handler.createAccount.
    destruct (handler.Decode (http.body r)) as [req [err|]].
    + left. by eexists _, _.
    + destruct (bool_decide (handler.Name req = "")
                || bool_decide (handler.Email req = "")).
      * left. by eexists _, _.
      * unfold bind. rewrite service_Create_world. right. by eexists _, _.
  - destruct (bool_decide (http.Method r = http.MethodGet)).
    + unfold handler.listAccounts, bind, service.List.
      destruct (List_spec w) as (l & -> & _). right. by eexists _, _.
    + left. by eexists _, _.
Qed.

Lemma handleAccountByID_isReply (r : http.Request) (w : World) :
  isReply (handler.handleAccountByID r w).1.
Proof.
  unfold handler.handleAccountByID.
  destruct (bool_decide (http.Method r ≠ http.MethodGet)); [left; by eexists _, _|].
  destruct (bool_decide (TrimPrefix (http.Path r) "/accounts/" = ""));
    [left; by eexists _, _|].
  unfold handler.getAccount, bind, service.GetByID, store.GetByID.
  destruct (accounts w !! _); [right | left]; by eexists _, _.
Qed.

Lemma respond_Logging (next : http.Handler) (r : http.Request) (w : World) :
  http.respond (middleware.Logging next) r w
  = (foldl http.call http.newResponse (middleware.Logging next r w).1,
     (middleware.Logging next r w).2).
Proof.
  unfold http.respond, http.ServeHTTP, bind.
  by destruct (middleware.Logging next r w).
Qed.
End logging_line.

(** X18.  For every handler and every request, [Logging] passes on exactly
    the calls the handler makes on the request it is handed (the original
    request, or, when reading its body failed, the request with the body
    consumed), and appends exactly one line to the log: method and path of
    the request, its compacted body (empty when there is no body or reading
    it failed), the last status the handler set (200 when it set none), the
    compacted bytes it wrote, and the time between the two clock readings. *)
Theorem Logging_logs_one_line {env : Env}
    (next : http.Handler) (r : http.Request) (w : World) :
  let inner := next (forwardedRequest r) (time_Now w).2 in
  (middleware.Logging next r w).1 = inner.1
  /\ logged (middleware.Logging next r w).2
     = logged inner.2
       ++ [LogHTTP (http.Method r) (http.Path r) (loggedRequestBody r)
                   (lastStatus http.StatusOK inner.1)
                   (middleware.compactJSON (writtenBytes inner.1))
                   (gotime.unixNano (timeNow (clockReads inner.2))
                    - gotime.unixNano (timeNow (clockReads w)))]
  /\ clockReads (middleware.Logging next r w).2 = S (clockReads inner.2).
Proof.
  intros inner. subst inner. rewrite Logging_run.
  cbn [fst snd logged clockReads]. split_and!; reflexivity.
Qed.

(** X19.  Behind [Logging], the log line of the two account handlers shows
    what the client gets: its status is the status of the response and its
    response field is the compacted response body, for every request and
    every state. *)
Theorem Logging_logs_the_response {env : Env} (r : http.Request) (w : World) :
  (exists (reqBody : string) (elapsed : Z),
      last (logged (http.respond (middleware.Logging handler.handleAccounts) r w).2)
      = Some (LogHTTP (http.Method r) (http.Path r) reqBody
                (http.status
                   (http.respond (middleware.Logging handler.handleAccounts) r w).1)
                (middleware.compactJSON
                   (http.written
                      (http.respond (middleware.Logging handler.handleAccounts) r w).1))
                elapsed))
  /\ (exists (reqBody : string) (elapsed : Z),
      last (logged (http.respond (middleware.Logging handler.handleAccountByID) r w).2)
      = Some (LogHTTP (http.Method r) (http.Path r) reqBody
                (http.status
                   (http.respond (middleware.Logging handler.handleAccountByID) r w).1)
                (middleware.compactJSON
                   (http.written
                      (http.respond (middleware.Logging handler.handleAccountByID) r w).1))
                elapsed)).
Proof.
  split.
  - rewrite respond_Logging, Logging_run. cbn [fst snd logged].
    destruct (reply_status_and_bytes _
                (handleAccounts_isReply (forwardedRequest r) (time_Now w).2))
      as [<- <-].
    rewrite last_snoc. by eexists _, _.
  - rewrite respond_Logging, Logging_run. cbn [fst snd logged].
    destruct (reply_status_and_bytes _
                (handleAccountByID_isReply (forwardedRequest r) (time_Now w).2))
      as [<- <-].
    rewrite last_snoc. by eexists _, _.
Qed.

Section listing_body.
Context {env : Env}.


Lemma handleAccounts_clockReads (r : http.Request) (w : World) :
  (clockReads w <= clockReads (handler.handleAccounts r w).2)%nat.
Proof.
  unfold handler.handleAccounts.
  destruct (bool_decide (http.Method r = http.MethodPost)).
  - unfold handler.createAccount.
    destruct (handler.Decode (http.body r)) as [req [err|]]; [reflexivity|].
    destruct (bool_decide (handler.Name req = "")
              || bool_decide (handler.Email req = "")); [reflexivity|].
    unfold bind. rewrite service_Create_world. cbn. lia.
  - destruct (bool_decide (http.Method r = http.MethodGet)); [|reflexivity].
    unfold handler.listAccounts, bind, service.List.
    destruct (List_spec w) as (l & -> & _). reflexivity.
Qed.

Lemma handleAccountByID_clockReads (r : http.Request) (w : World) :
  (clockReads w <= clockReads (handler.handleAccountByID r w).2)%nat.
Proof.
  unfold handler.handleAccountByID.
  destruct (bool_decide (http.Method r ≠ http.MethodGet)); [reflexivity|].
  destruct (bool_decide (TrimPrefix (http.Path r) "/accounts/" = "")); [reflexivity|].
  unfold handler.getAccount, bind, service.GetByID, store.GetByID.
  by destruct (accounts w !! _).
Qed.
End listing_body.



(** X21.  With a clock that never runs backwards, the elapsed time in the
    log line that [Logging] writes for the two account handlers is never
    negative. *)
Theorem Logging_elapsed_not_negative {env : Env} (r : http.Request) (w : World) :
  clockMonotone ->
  (exists (reqBody resp : string) (status elapsed : Z),
      last (logged (middleware.Logging handler.handleAccounts r w).2)
      = Some (LogHTTP (http.Method r) (http.Path r) reqBody status resp elapsed)
      /\ 0 <= elapsed)
  /\ (exists (reqBody resp : string) (status elapsed : Z),
      last (logged (middleware.Logging handler.handleAccountByID r w).2)
      = Some (LogHTTP (http.Method r) (http.Path r) reqBody status resp elapsed)
      /\ 0 <= elapsed).
Proof.
  intros Hclock. split.
  - rewrite Logging_run. cbn [snd logged]. rewrite last_snoc.
    eexists _, _, _, _. split; [reflexivity|].
    apply Z.le_0_sub, Hclock.
    etrans; [|apply handleAccounts_clockReads]. cbn [time_Now snd clockReads]. lia.
  - rewrite Logging_run. cbn [snd logged]. rewrite last_snoc.
    eexists _, _, _, _. split; [reflexivity|].
    apply Z.le_0_sub, Hclock.
    etrans; [|apply handleAccountByID_clockReads]. cbn [time_Now snd clockReads]. lia.
Qed.

Lemma Logging_elapsed_not_negative_witness :
  exists (reqBody resp : string) (status elapsed : Z),
    last (logged (middleware.Logging (env:=sampleEnv)
                    (handler.handleAccounts (env:=sampleEnv))
                    (http.mkRequest http.MethodPost "/accounts"
                       (http.Reader aliceDoc None)) NewWorld).2)
    = Some (LogHTTP http.MethodPost "/accounts" reqBody status resp elapsed)
    /\ 0 <= elapsed.
Proof.
  destruct (Logging_elapsed_not_negative (env:=sampleEnv)
              (http.mkRequest http.MethodPost "/accounts" (http.Reader aliceDoc None))
              NewWorld) as [Hline _]; [|exact Hline].
  intros i j Hij. simpl. lia.
Defined.
